(** * RcloneTray: startup and shutdown orchestration ([src/app.js], [src/app-quit.js])

    A shallow embedding of [app()] and [appQuit()].  The two functions
    are glue code: every interesting step is a call into a collaborator
    (the rclone service, the GUI toolkit, the logger, the process
    object).  The calls are recorded, in program order, in a trace kept
    in the [world]; what a collaborator answers (a promise that
    resolves or rejects, a [close()] that throws) is read from an
    [environment].  Exceptions and [process.exit] are outcomes of a
    small state monad.

    Outside the model: a promise that never settles, and a thrown value
    without a string form ([null], [undefined]). *)

From stdpp Require Import gmap strings list fin_maps.
From Stdlib Require Import ZArith Ascii.


(** ** JavaScript values that the code converts with [toString] or tests
    for truthiness: thrown values, rejection reasons and the fields of
    an [error] event.  They are strings or [Error] objects. *)

Inductive js_value :=
| JStr (s : string)
| JError (name message : string).

#[global] Instance js_value_eq_dec : EqDecision js_value.
Proof. solve_decision. Defined.

(** [String.prototype.toString] is the identity, [Error.prototype.toString]
    joins name and message with a colon unless one of them is empty. *)
Definition toString (v : js_value) : string :=
  match v with
  | JStr s => s
  | JError name message =>
      if bool_decide (name = "") then message
      else if bool_decide (message = "") then name
      else name +:+ ": " +:+ message
  end.

(** [ToBoolean]: the empty string is the only falsy value of the type;
    objects are truthy. *)
Definition truthy (v : js_value) : bool :=
  match v with
  | JStr s => negb (bool_decide (s = ""))
  | JError _ _ => true
  end.

(** A property that may be missing reads as [undefined], which is falsy. *)
Definition truthy_opt {A} (t : A → bool) (v : option A) : bool :=
  match v with Some x => t x | None => false end.

(** ** Options of the rclone daemon *)

Inductive scalar :=
| SNum (n : Z)
| SBool (b : bool)
| SStr (s : string).

#[global] Instance scalar_eq_dec : EqDecision scalar.
Proof. solve_decision. Defined.

(** [ConfigOptions]: an object whose properties are sections, each an
    object from option name to value. *)
Abbreviation section_options := (gmap string scalar).
Abbreviation ConfigOptions := (gmap string (gmap string scalar)).

(** [{...target, ...source}]: the own properties of [source] are copied
    over those of [target], one property at a time; a property value
    that is itself an object is copied as a whole. *)
Definition object_spread {V} (target source : gmap string V) : gmap string V :=
  source ∪ target.

(** The object literal of the first [ready] listener, app.js lines 64-77. *)
Definition builtin_vfs : section_options :=
  <["Timeout" := SNum 10]> (<["DirCacheTime" := SNum 3]> (<["ReadOnly" := SBool true]>
  (<["CachePollInterval" := SNum 10000]> (<["PollInterval" := SNum 10000]> ∅)))).

Definition builtin_mount : section_options :=
  <["NoAppleDouble" := SBool true]> (<["NoAppleXattr" := SBool true]>
  (<["AllowNonEmpty" := SBool false]> (<["Daemon" := SBool false]>
  (<["DebugFUSE" := SBool false]> ∅)))).

Definition builtin_options : ConfigOptions :=
  <["vfs" := builtin_vfs]> (<["mount" := builtin_mount]> ∅).

(** [{ vfs: {...}, mount: {...}, ...config.get('rclone_options') }];
    spreading [undefined] copies nothing. *)
Definition ready_options (rclone_options : option ConfigOptions) : ConfigOptions :=
  object_spread builtin_options (default ∅ rclone_options).

(** Reading option [k] of section [s]. *)
Definition option_lookup (o : ConfigOptions) (s k : string) : option scalar :=
  o !! s ≫= (.!! k).

(** The merge as the specification words it: within every section the
    override wins key by key and a key the overrides do not mention
    keeps its default. *)
Definition merged_key_by_key (defaults overrides merged : ConfigOptions) : Prop :=
  ∀ s k, option_lookup merged s k =
         match option_lookup overrides s k with
         | Some v => Some v
         | None => option_lookup defaults s k
         end.

(** ** Bookmarks

    A bookmark is a section of the rclone configuration: an object from
    key to string.  [getBookmarks] resolves to an object from bookmark
    name to bookmark; the model keeps its [Object.entries], the pairs in
    property order. *)
Abbreviation bookmarkConfig := (gmap string string).
Abbreviation bookmarks := (list (string * gmap string string)).

(** [RCLONETRAY_CONFIG.CUSTOM_KEYS] of services/rclone.js: the names of
    the three keys read at startup.  Their values are not part of
    app.js, so they are carried by the environment. *)
Record custom_keys := {
  autoMount : string;
  pullOnStart : string;
  localDirectory : string
}.

(** ** Events of [rclone.emitter] and what the listeners hand on *)

(** What [logInsert] is called with: a [{level, msg}] object, or the
    payload of an [error] event passed on as it came. *)
Inductive log_record :=
| LogEntry (level msg : string)
| LogErrorEvent (error : js_value) (reason : option js_value).

Inductive event :=
| ev_error (error : js_value) (reason : option js_value)
| ev_config (info : option (string * string))
| ev_action (action name : string) (completed : bool)
| ev_ready
| ev_log (entry : log_record)
| ev_invalid_config_pass (message : string).

Definition event_name (ev : event) : string :=
  match ev with
  | ev_error _ _ => "error"
  | ev_config _ => "config"
  | ev_action _ _ _ => "action"
  | ev_ready => "ready"
  | ev_log _ => "log"
  | ev_invalid_config_pass _ => "invalid-config-pass"
  end.

(** The listeners that [app] registers, named by event and purpose, in
    the order of the [rclone.emitter.on] calls. *)
Inductive listener :=
| on_error_notify        (* line 53 *)
| on_config_updateMenu   (* line 59 *)
| on_action_updateMenu   (* line 60 *)
| on_ready_setOptions    (* line 62, async *)
| on_ready_menu          (* line 82 *)
| on_ready_bookmarks     (* line 90, async *)
| on_error_logInsert     (* line 110 *)
| on_log_logInsert       (* line 114 *)
| on_config_logInsert    (* line 118 *)
| on_action_logInsert    (* line 134 *)
| on_invalid_config_pass (* line 148 *).

(** The only callback that the code hands to [promptError]:
    [() => process.exit(code)]. *)
Inductive callback :=
| cb_process_exit (code : Z).

(** ** Calls into collaborators, as they appear in the trace *)
Inductive effect :=
| E_setUncaughtExceptionCaptureCallback
| E_gui_app_setID (id : string)
| E_gui_app_setName (name : string)
| E_singleInstanceLock (id : string)
| E_promptError (title message : string) (cb : callback)
| E_process_exit (code : Z)
| E_createTrayMenu
| E_config_onDidChange (key : string)
| E_config_onDidAnyChange
| E_sendNotification (message : string)
| E_logger_log (tag message : string)
| E_logger_warn (text detail : string)
| E_rclone_setOptions (options : ConfigOptions)
| E_updateMenu
| E_gui_app_setApplicationMenu
| E_gui_app_setActivationPolicy (policy : string)
| E_rclone_getBookmarks
| E_rclone_mount (name : string) (config : bookmarkConfig)
| E_rclone_pull (name : string) (config : bookmarkConfig)
| E_logInsert (record : log_record)
| E_rclone_setupDaemon
| E_runGC
| E_win_close (win : nat)
| E_stopRcloneDaemon
| E_console_warn (text detail : string).

#[global] Instance log_record_eq_dec : EqDecision log_record.
Proof. solve_decision. Defined.
#[global] Instance listener_eq_dec : EqDecision listener.
Proof. solve_decision. Defined.
#[global] Instance callback_eq_dec : EqDecision callback.
Proof. solve_decision. Defined.
#[global] Instance effect_eq_dec : EqDecision effect.
Proof. solve_decision. Defined.

(** ** The world and the environment *)

Record world := World {
  trace : list effect;                      (* calls made so far, oldest first *)
  listeners : list (string * listener);     (* registry of rclone.emitter *)
  prompts : list callback;                  (* open error prompts, oldest first *)
  gui_app_id : string;                      (* what gui.app.getID() returns *)
  rejections : list (listener * js_value)   (* async listeners whose promise was rejected *)
}.

(** An open window of utils/gui-winref.js: [close()] returns, or throws. *)
Record window := {
  win_id : nat;
  close_result : option js_value
}.

#[global] Instance window_eq_dec : EqDecision window.
Proof. solve_decision. Defined.

(** What the collaborators answer.  For a promise, [None] is resolved
    and [Some e] is rejected with [e]. *)
Record environment := {
  platform : string;
  packageJson_build_appId : string;
  packageJson_build_productName : string;
  packageJson_productName : string;
  singleInstanceLock_result : string → option js_value;
  config_rclone_options : option ConfigOptions;
  setOptions_result : ConfigOptions → option js_value;
  getBookmarks_result : js_value + bookmarks;
  CUSTOM_KEYS : custom_keys;
  open_windows : list window;
  stopRcloneDaemon_result : option js_value
}.

(** ** The monad: state, exceptions and process exit *)

Inductive outcome (A : Type) :=
| Ret (a : A)
| Throw (e : js_value)
| Exit (code : Z).
Arguments Ret {A} a.
Arguments Throw {A} e.
Arguments Exit {A} code.

Definition M (A : Type) : Type := world → outcome A * world.

#[global] Instance M_ret : MRet M := λ A a w, (Ret a, w).

#[global] Instance M_bind : MBind M := λ A B f m w,
  match m w with
  | (Ret a, w') => f a w'
  | (Throw e, w') => (Throw e, w')
  | (Exit c, w') => (Exit c, w')
  end.

Definition throw {A} (e : js_value) : M A := λ w, (Throw e, w).

(** [try { m } catch (error) { h error }] *)
Definition try_catch {A} (m : M A) (h : js_value → M A) : M A := λ w,
  match m w with
  | (Throw e, w') => h e w'
  | r => r
  end.

Definition record_call (w : world) (e : effect) : world :=
  World (trace w ++ [e]) (listeners w) (prompts w) (gui_app_id w) (rejections w).

Definition call (e : effect) : M unit := λ w, (Ret tt, record_call w e).

(** [await p], for a promise that settles as [r]. *)
Definition settle (r : option js_value) : M unit :=
  match r with
  | None => mret tt
  | Some e => throw e
  end.

(** [process.exit(code)] ends the process: nothing after it runs. *)
Definition process_exit {A} (code : Z) : M A := λ w,
  (Exit code, record_call w (E_process_exit code)).

(** [for (const x of l) body(x)] *)
Fixpoint for_of {A} (l : list A) (body : A → M unit) : M unit :=
  match l with
  | [] => mret tt
  | x :: l' => body x ;; for_of l' body
  end.

Definition newline : string := String "010"%char "".

(** ** The program *)

Section Program.
Context (env : environment).

(** *** Collaborators *)

Definition gui_app_setID (id : string) : M unit := λ w,
  (Ret tt, World (trace w ++ [E_gui_app_setID id]) (listeners w) (prompts w) id (rejections w)).

Definition gui_app_getID : M string := λ w, (Ret (gui_app_id w), w).

Definition singleInstanceLock (id : string) : M unit :=
  call (E_singleInstanceLock id) ;; settle (singleInstanceLock_result env id).

(** Modelled from the spec: [promptError] of utils/prompt.js is not
    part of the two files.  It presents a blocking error prompt and
    runs its callback once the user acknowledges the prompt. *)
Definition promptError (title message : string) (cb : callback) : M unit := λ w,
  (Ret tt, World (trace w ++ [E_promptError title message cb])
                 (listeners w) (prompts w ++ [cb]) (gui_app_id w) (rejections w)).

Definition run_callback (cb : callback) : M unit :=
  match cb with
  | cb_process_exit code => process_exit code
  end.

(** The user acknowledges the oldest open prompt. *)
Definition acknowledge : M unit := λ w,
  match prompts w with
  | [] => (Ret tt, w)
  | cb :: rest =>
    run_callback cb (World (trace w) (listeners w) rest (gui_app_id w) (rejections w))
  end.

Definition emitter_on (name : string) (l : listener) : M unit := λ w,
  (Ret tt, World (trace w) (listeners w ++ [(name, l)]) (prompts w) (gui_app_id w)
               (rejections w)).

Definition rclone_setOptions (options : ConfigOptions) : M unit :=
  call (E_rclone_setOptions options) ;; settle (setOptions_result env options).

Definition rclone_getBookmarks : M bookmarks :=
  call E_rclone_getBookmarks ;;
  match getBookmarks_result env with
  | inl e => throw e
  | inr b => mret b
  end.

(** Modelled from the spec: [mount] and [pull] of services/rclone.js
    are asynchronous operations (section 4.4).  The call hands back a
    promise that app.js drops, so a failure of the operation never
    reaches the caller. *)
Definition rclone_mount (name : string) (config : bookmarkConfig) : M unit :=
  call (E_rclone_mount name config).

Definition rclone_pull (name : string) (config : bookmarkConfig) : M unit :=
  call (E_rclone_pull name config).

Definition stopRcloneDaemon : M unit :=
  call E_stopRcloneDaemon ;; settle (stopRcloneDaemon_result env).

Definition win_close (win : window) : M unit :=
  call (E_win_close (win_id win)) ;; settle (close_result win).

(** Modelled from the spec: [forEach] of utils/gui-winref.js is not
    part of the two files.  Closing the UI asks every open surface to
    close and may throw (section 4.7): the callback is applied to the
    open windows in turn, and an exception of the callback ends the
    iteration and reaches the caller. *)
Definition forEach (callback : window → M unit) : M unit :=
  for_of (open_windows env) callback.

(** *** Listeners of app.js *)

(** Lines 53-57. *)
Definition error_message (error : js_value) (reason : option js_value) : string :=
  toString error +:+
  match reason with
  | Some r => if truthy r then newline +:+ toString r else ""
  | None => ""
  end.

Definition error_notify (error : js_value) (reason : option js_value) : M unit :=
  let message := error_message error reason in
  call (E_sendNotification message) ;;
  call (E_logger_log "!!!RCLONE_ERROR!!!" message).

(** Lines 62-80. *)
Definition ready_setOptions : M unit :=
  rclone_setOptions (ready_options (config_rclone_options env)).

(** Lines 82-88. *)
Definition ready_menu : M unit :=
  call E_updateMenu ;;
  if bool_decide (platform env = "darwin") then
    call E_gui_app_setApplicationMenu ;;
    call (E_gui_app_setActivationPolicy "accessory")
  else mret tt.

(** Lines 94-103, the body of the loop. *)
Definition wants_mount (config : bookmarkConfig) : bool :=
  bool_decide (config !! autoMount (CUSTOM_KEYS env) = Some "true").

Definition wants_pull (config : bookmarkConfig) : bool :=
  bool_decide (config !! pullOnStart (CUSTOM_KEYS env) = Some "true") &&
  truthy_opt (λ s, negb (bool_decide (s = ""))) (config !! localDirectory (CUSTOM_KEYS env)).

Definition reconcile_bookmark (entry : string * bookmarkConfig) : M unit :=
  let '(bookmarkName, bookmarkConfig) := entry in
  (if wants_mount bookmarkConfig
   then rclone_mount bookmarkName bookmarkConfig else mret tt) ;;
  (if wants_pull bookmarkConfig
   then rclone_pull bookmarkName bookmarkConfig else mret tt).

(** Lines 90-108. *)
Definition ready_bookmarks : M unit :=
  try_catch
    (bookmarks ← rclone_getBookmarks;
     for_of bookmarks reconcile_bookmark)
    (λ error, call (E_logger_warn "Cannot fetch bookmarks upon start." (toString error))).

(** Lines 118-132. *)
Definition config_logInsert (info : option (string * string)) : M unit :=
  match info with
  | None => call (E_logInsert (LogEntry "info" "External config change"))
  | Some (action, name) =>
      call (E_logInsert (LogEntry "info" ("Config: " +:+ action +:+ " on: " +:+ name)))
  end.

(** Lines 134-146. *)
Definition action_logInsert (action name : string) (completed : bool) : M unit :=
  if completed
  then call (E_logInsert (LogEntry "info" ("Stop: " +:+ action +:+ " on: " +:+ name)))
  else call (E_logInsert (LogEntry "info" ("Start: " +:+ action +:+ " on: " +:+ name))).

(** Lines 148-161. *)
Definition invalid_config_pass (message : string) : M unit :=
  call (E_logInsert (LogEntry "error" "Invalid Rclone password")) ;;
  promptError "Invalid Rclone password" message (cb_process_exit 1).

Definition run_listener (l : listener) (ev : event) : M unit :=
  match l, ev with
  | on_error_notify, ev_error error reason => error_notify error reason
  | on_config_updateMenu, ev_config _ => call E_updateMenu
  | on_action_updateMenu, ev_action _ _ _ => call E_updateMenu
  | on_ready_setOptions, ev_ready => ready_setOptions
  | on_ready_menu, ev_ready => ready_menu
  | on_ready_bookmarks, ev_ready => ready_bookmarks
  | on_error_logInsert, ev_error error reason => call (E_logInsert (LogErrorEvent error reason))
  | on_log_logInsert, ev_log entry => call (E_logInsert entry)
  | on_config_logInsert, ev_config info => config_logInsert info
  | on_action_logInsert, ev_action action name completed => action_logInsert action name completed
  | on_invalid_config_pass, ev_invalid_config_pass message => invalid_config_pass message
  | _, _ => mret tt
  end.

(** *** The emitter *)

Definition is_async (l : listener) : bool :=
  match l with
  | on_ready_setOptions | on_ready_bookmarks => true
  | _ => false
  end.

(** The promise that an async listener handed back is rejected. *)
Definition reject (l : listener) (e : js_value) : M unit := λ w,
  (Ret tt, World (trace w) (listeners w) (prompts w) (gui_app_id w)
                 (rejections w ++ [(l, e)])).

(** An async listener hands a promise back to [emit]: what it throws
    rejects that promise and does not stop the listeners after it.  A
    plain listener that throws ends [emit].

    An async listener runs up to its first [await] before the next
    listener starts, and goes on once the awaited promise has settled.
    Of the two async listeners, the first makes its one call before it
    awaits and the other makes all its further calls after it, so the
    calls are those, and in the order, of running each listener to its
    end in turn; the rejections are kept apart from the trace. *)
Definition dispatch (ev : event) (l : listener) : M unit :=
  if is_async l
  then try_catch (run_listener l ev) (reject l)
  else run_listener l ev.

Definition listeners_for (name : string) (reg : list (string * listener)) : list listener :=
  snd <$> filter (λ p, p.1 = name) reg.

(** [rclone.emitter.emit(name, payload)]: the listeners registered
    for the name run in registration order. *)
Definition emit (ev : event) : M unit := λ w,
  for_of (listeners_for (event_name ev) (listeners w)) (dispatch ev) w.

(** *** [app], app.js lines 18-166 *)

Definition already_running_message : string :=
  "There is already running instance of " +:+ packageJson_productName env +:+
  ", cannot start twice.".

(** The [try] of lines 30-45; the result tells whether the [catch]
    block left the function with [return]. *)
Definition acquire_lock : M bool :=
  try_catch
    (id ← gui_app_getID; singleInstanceLock id ;; mret false)
    (λ error,
       if bool_decide (toString error = "ALREADY_RUNNING")
       then promptError (packageJson_productName env) already_running_message
                        (cb_process_exit 1) ;;
            mret true
       else throw error).

Definition register_listeners : M unit :=
  emitter_on "error" on_error_notify ;;
  emitter_on "config" on_config_updateMenu ;;
  emitter_on "action" on_action_updateMenu ;;
  emitter_on "ready" on_ready_setOptions ;;
  emitter_on "ready" on_ready_menu ;;
  emitter_on "ready" on_ready_bookmarks ;;
  emitter_on "error" on_error_logInsert ;;
  emitter_on "log" on_log_logInsert ;;
  emitter_on "config" on_config_logInsert ;;
  emitter_on "action" on_action_logInsert ;;
  emitter_on "invalid-config-pass" on_invalid_config_pass.

Definition app : M unit :=
  call E_setUncaughtExceptionCaptureCallback ;;
  (if bool_decide (platform env = "win32") || bool_decide (platform env = "linux")
   then gui_app_setID (packageJson_build_appId env) else mret tt) ;;
  call (E_gui_app_setName (packageJson_build_productName env)) ;;
  returned ← acquire_lock;
  if (returned : bool) then mret tt
  else
    call E_createTrayMenu ;;
    call (E_config_onDidChange "rclone_options") ;;
    call E_config_onDidAnyChange ;;
    register_listeners ;;
    call E_rclone_setupDaemon ;;
    call E_runGC.

(** *** [appQuit], app-quit.js lines 4-13 *)

Definition appQuit : M unit :=
  try_catch
    (forEach win_close ;; stopRcloneDaemon)
    (λ error,
       call (E_console_warn "Exit with errors." (toString error)) ;;
       process_exit 1) ;;
  process_exit 0.

End Program.

(** The process before [app] runs; [id] is the identifier that the GUI
    toolkit reports until [setID] is called. *)
Definition initial_world (id : string) : world := World [] [] [] id [].

(** ** Reading a trace *)

Definition mount_calls (t : list effect) : bookmarks :=
  omap (λ e, match e with E_rclone_mount n c => Some (n, c) | _ => None end) t.

Definition pull_calls (t : list effect) : bookmarks :=
  omap (λ e, match e with E_rclone_pull n c => Some (n, c) | _ => None end) t.

Definition setOptions_calls (t : list effect) : list ConfigOptions :=
  omap (λ e, match e with E_rclone_setOptions o => Some o | _ => None end) t.

(** The log store: what [logInsert] received, in order. *)
Definition log_store (t : list effect) : list log_record :=
  omap (λ e, match e with E_logInsert r => Some r | _ => None end) t.

Definition notifications (t : list effect) : list string :=
  omap (λ e, match e with E_sendNotification m => Some m | _ => None end) t.

Definition prompts_shown (t : list effect) : list (string * string) :=
  omap (λ e, match e with E_promptError title m _ => Some (title, m) | _ => None end) t.

Definition warnings (t : list effect) : list (string * string) :=
  omap (λ e, match e with
             | E_logger_warn a b | E_console_warn a b => Some (a, b)
             | _ => None
             end) t.

(** How often [getBookmarks] was called. *)
Definition getBookmarks_calls (t : list effect) : nat :=
  length (filter (λ e, e = E_rclone_getBookmarks) t).

(** ** Runs that the properties speak about *)

Definition run {A} (m : M A) (w : world) : outcome A * list effect :=
  let r := m w in (r.1, trace r.2).

(** [app], then the daemon emits [ev]. *)
Definition startup_then (env : environment) (ev : event) : M unit :=
  app env ;; emit env ev.

(** The event is emitted and the user acknowledges the open prompt. *)
Definition startup_then_acknowledge (env : environment) (ev : event) : M unit :=
  startup_then env ev ;; acknowledge.

(** [app], then the user acknowledges the open prompt. *)
Definition app_then_acknowledge (env : environment) : M unit :=
  app env ;; acknowledge.

(** The same environment with another answer of [getBookmarks]. *)
Definition with_getBookmarks (env : environment) (r : js_value + bookmarks) : environment :=
  Build_environment (platform env) (packageJson_build_appId env)
    (packageJson_build_productName env) (packageJson_productName env)
    (singleInstanceLock_result env) (config_rclone_options env)
    (setOptions_result env) r (CUSTOM_KEYS env) (open_windows env)
    (stopRcloneDaemon_result env).

(** The identifier that [app] passes to [singleInstanceLock]. *)
Definition lock_id (env : environment) (id0 : string) : string :=
  if bool_decide (platform env = "win32") || bool_decide (platform env = "linux")
  then packageJson_build_appId env else id0.

Definition lock_acquired (env : environment) (id0 : string) : Prop :=
  singleInstanceLock_result env (lock_id env id0) = None.

(** ** The trace of [app] and of a [ready] cycle, in closed form *)

Definition app_prefix (env : environment) (id0 : string) : list effect :=
  E_setUncaughtExceptionCaptureCallback ::
  (if bool_decide (platform env = "win32") || bool_decide (platform env = "linux")
   then [E_gui_app_setID (packageJson_build_appId env)] else []) ++
  [E_gui_app_setName (packageJson_build_productName env);
   E_singleInstanceLock (lock_id env id0)].

Definition app_setup : list effect :=
  [E_createTrayMenu; E_config_onDidChange "rclone_options"; E_config_onDidAnyChange;
   E_rclone_setupDaemon; E_runGC].

Definition app_listeners : list (string * listener) :=
  [("error", on_error_notify); ("config", on_config_updateMenu);
   ("action", on_action_updateMenu); ("ready", on_ready_setOptions);
   ("ready", on_ready_menu); ("ready", on_ready_bookmarks);
   ("error", on_error_logInsert); ("log", on_log_logInsert);
   ("config", on_config_logInsert); ("action", on_action_logInsert);
   ("invalid-config-pass", on_invalid_config_pass)].

Definition bookmark_calls (env : environment) (entry : string * gmap string string) : list effect :=
  (if wants_mount env entry.2 then [E_rclone_mount entry.1 entry.2] else []) ++
  (if wants_pull env entry.2 then [E_rclone_pull entry.1 entry.2] else []).

Definition setOptions_trace (env : environment) : list effect :=
  [E_rclone_setOptions (ready_options (config_rclone_options env))].

(** The promise of the first [ready] listener is rejected when the one
    of [setOptions] is. *)
Definition setOptions_rejection (env : environment) : list (listener * js_value) :=
  match setOptions_result env (ready_options (config_rclone_options env)) with
  | Some e => [(on_ready_setOptions, e)]
  | None => []
  end.

Definition menu_trace (env : environment) : list effect :=
  E_updateMenu ::
  if bool_decide (platform env = "darwin")
  then [E_gui_app_setApplicationMenu; E_gui_app_setActivationPolicy "accessory"]
  else [].

Definition bookmarks_trace (env : environment) : list effect :=
  E_rclone_getBookmarks ::
  match getBookmarks_result env with
  | inl e => [E_logger_warn "Cannot fetch bookmarks upon start." (toString e)]
  | inr bs => flat_map (bookmark_calls env) bs
  end.

(** A [ready] event in a world whose registry is the one of [app]:
    the three listeners in registration order. *)
Definition ready_trace (env : environment) : list effect :=
  setOptions_trace env ++ menu_trace env ++ bookmarks_trace env.

(** The world after further calls [t]. *)
Definition extend (w : world) (t : list effect) : world :=
  World (trace w ++ t) (listeners w) (prompts w) (gui_app_id w) (rejections w).

(** The world after further rejections [rs]. *)
Definition rejected (w : world) (rs : list (listener * js_value)) : world :=
  World (trace w) (listeners w) (prompts w) (gui_app_id w) (rejections w ++ rs).

(** ** The closed form of [appQuit] *)

(** The windows closed before the first [close()] that throws, and
    what it threw. *)
Fixpoint close_windows (ws : list window) : list effect * option js_value :=
  match ws with
  | [] => ([], None)
  | win :: ws' =>
      match close_result win with
      | Some e => ([E_win_close (win_id win)], Some e)
      | None => let r := close_windows ws' in (E_win_close (win_id win) :: r.1, r.2)
      end
  end.

(** The first step of [appQuit] that raises, if one does. *)
Definition shutdown_failure (env : environment) : option js_value :=
  match (close_windows (open_windows env)).2 with
  | Some e => Some e
  | None => stopRcloneDaemon_result env
  end.

Definition exit_code (env : environment) : Z :=
  match shutdown_failure env with
  | Some _ => 1
  | None => 0
  end.

Definition appQuit_trace (env : environment) : list effect :=
  (close_windows (open_windows env)).1 ++
  match (close_windows (open_windows env)).2 with
  | Some e => [E_console_warn "Exit with errors." (toString e); E_process_exit 1]
  | None =>
      E_stopRcloneDaemon ::
      match stopRcloneDaemon_result env with
      | Some e => [E_console_warn "Exit with errors." (toString e); E_process_exit 1]
      | None => [E_process_exit 0]
      end
  end.

(** Every step of the shutdown sequence completed without raising. *)
Definition steps_completed (env : environment) : Prop :=
  Forall (λ win, close_result win = None) (open_windows env) ∧
  stopRcloneDaemon_result env = None.

(** ** Tactics *)

(** Symbolic execution: the monad, the collaborators and the fields of
    the world are unfolded, the strings of the program stay folded. *)
Ltac exec :=
  cbv [app acquire_lock register_listeners appQuit forEach
       ready_setOptions ready_menu ready_bookmarks reconcile_bookmark
       error_notify config_logInsert action_logInsert invalid_config_pass
       gui_app_setID gui_app_getID singleInstanceLock promptError emitter_on
       rclone_setOptions rclone_getBookmarks rclone_mount rclone_pull
       stopRcloneDaemon win_close run_callback acknowledge reject
       mbind M_bind mret M_ret try_catch throw settle call process_exit record_call
       initial_world trace listeners prompts gui_app_id rejections fst snd].

(** Case analysis on the tests that shape the part of the trace before
    the bookmarks are fetched. *)
Ltac before_bookmarks env :=
  unfold app_prefix, app_setup, setOptions_trace, menu_trace;
  destruct (bool_decide (platform env = "win32") || bool_decide (platform env = "linux"));
  destruct (bool_decide (platform env = "darwin"));
  reflexivity.

(** ** Sample inputs *)

Definition sample_keys : custom_keys :=
  {| autoMount := "rclonetray_automount";
     pullOnStart := "rclonetray_pullonstart";
     localDirectory := "rclonetray_local_directory" |}.

Definition bookmark_A : gmap string string := <["rclonetray_automount" := "true"]> ∅.
Definition bookmark_B : gmap string string :=
  <["rclonetray_pullonstart" := "true"]> (<["rclonetray_local_directory" := "/x"]> ∅).
Definition bookmark_C : gmap string string := ∅.
Definition bookmark_D : gmap string string :=
  <["rclonetray_automount" := "true"]> (<["rclonetray_pullonstart" := "true"]>
  (<["rclonetray_local_directory" := "/y"]> ∅)).
(** [pullOnStart] without a directory, and [autoMount] spelled otherwise. *)
Definition bookmark_E : gmap string string :=
  <["rclonetray_automount" := "yes"]> (<["rclonetray_pullonstart" := "true"]>
  (<["rclonetray_local_directory" := ""]> ∅)).

Definition sample_bookmarks : bookmarks :=
  [("A", bookmark_A); ("B", bookmark_B); ("C", bookmark_C); ("D", bookmark_D);
   ("E", bookmark_E)].

Definition sample_env (lock : option js_value) (overrides : option ConfigOptions)
    (fetched : js_value + bookmarks) (wins : list window) (stop : option js_value)
    : environment :=
  {| platform := "linux";
     packageJson_build_appId := "com.rclonetray.app";
     packageJson_build_productName := "RcloneTray";
     packageJson_productName := "RcloneTray";
     singleInstanceLock_result := λ _, lock;
     config_rclone_options := overrides;
     setOptions_result := λ _, None;
     getBookmarks_result := fetched;
     CUSTOM_KEYS := sample_keys;
     open_windows := wins;
     stopRcloneDaemon_result := stop |}.

Definition env_started : environment :=
  sample_env None None (inr sample_bookmarks) [] None.

(** The override [{vfs: {Timeout: 20}}]. *)
Definition overrides_timeout : gmap string (gmap string scalar) :=
  <["vfs" := <["Timeout" := SNum 20]> ∅]> ∅.

Definition env_overrides : environment :=
  sample_env None (Some overrides_timeout) (inr sample_bookmarks) [] None.

(** The lock is held: rejected with the string, and with an [Error]
    object of that message. *)
Definition env_already_running : environment :=
  sample_env (Some (JStr "ALREADY_RUNNING")) None (inr sample_bookmarks) [] None.

Definition env_lock_error : environment :=
  sample_env (Some (JError "Error" "ALREADY_RUNNING")) None (inr sample_bookmarks) [] None.

Definition env_quit (wins : list window) (stop : option js_value) : environment :=
  sample_env None None (inr sample_bookmarks) wins stop.

Definition window_ok (id : nat) : window := {| win_id := id; close_result := None |}.
Definition window_stuck (id : nat) : window :=
  {| win_id := id; close_result := Some (JError "Error" "window is busy") |}.

Definition env_fetch_fails : environment :=
  sample_env None None (inl (JError "Error" "connection refused")) [] None.

(** ** Sequences of events, and further readings of a trace *)

#[global] Instance event_eq_dec : EqDecision event.
Proof. solve_decision. Defined.

(** [app], then the daemon emits the events [evs] one after the other. *)
Definition startup_then_all (env : environment) (evs : list event) : M unit :=
  app env ;; for_of evs (emit env).

(** How often the call [e] was made. *)
Definition calls_of (e : effect) (t : list effect) : nat :=
  length (filter (λ x, x = e) t).

Definition exit_calls (t : list effect) : list Z :=
  omap (λ e, match e with E_process_exit code => Some code | _ => None end) t.


Definition setID_calls (t : list effect) : list string :=
  omap (λ e, match e with E_gui_app_setID id => Some id | _ => None end) t.

Definition lock_calls (t : list effect) : list string :=
  omap (λ e, match e with E_singleInstanceLock id => Some id | _ => None end) t.

Definition activation_policies (t : list effect) : list string :=
  omap (λ e, match e with E_gui_app_setActivationPolicy p => Some p | _ => None end) t.

(** The [mount] and [pull] calls, in the order they were made. *)
Definition action_calls (t : list effect) : list effect :=
  omap (λ e, match e with
             | E_rclone_mount _ _ | E_rclone_pull _ _ => Some e
             | _ => None
             end) t.

(** The calls that the listeners of [app] make for one event, in
    registration order of the listeners. *)
Definition event_trace (env : environment) (ev : event) : list effect :=
  match ev with
  | ev_error error reason =>
      [E_sendNotification (error_message error reason);
       E_logger_log "!!!RCLONE_ERROR!!!" (error_message error reason);
       E_logInsert (LogErrorEvent error reason)]
  | ev_config None =>
      [E_updateMenu; E_logInsert (LogEntry "info" "External config change")]
  | ev_config (Some (action, name)) =>
      [E_updateMenu;
       E_logInsert (LogEntry "info" ("Config: " +:+ action +:+ " on: " +:+ name))]
  | ev_action action name true =>
      [E_updateMenu;
       E_logInsert (LogEntry "info" ("Stop: " +:+ action +:+ " on: " +:+ name))]
  | ev_action action name false =>
      [E_updateMenu;
       E_logInsert (LogEntry "info" ("Start: " +:+ action +:+ " on: " +:+ name))]
  | ev_ready => ready_trace env
  | ev_log entry => [E_logInsert entry]
  | ev_invalid_config_pass message =>
      [E_logInsert (LogEntry "error" "Invalid Rclone password");
       E_promptError "Invalid Rclone password" message (cb_process_exit 1)]
  end.

Definition event_prompts (ev : event) : list callback :=
  match ev with
  | ev_invalid_config_pass _ => [cb_process_exit 1]
  | _ => []
  end.

Definition event_rejections (env : environment) (ev : event) : list (listener * js_value) :=
  match ev with
  | ev_ready => setOptions_rejection env
  | _ => []
  end.

(** What an event puts into the log store. *)
Definition log_record_of (ev : event) : option log_record :=
  match ev with
  | ev_ready => None
  | ev_invalid_config_pass _ => Some (LogEntry "error" "Invalid Rclone password")
  | ev_error error reason => Some (LogErrorEvent error reason)
  | ev_log entry => Some entry
  | ev_config None => Some (LogEntry "info" "External config change")
  | ev_config (Some (action, name)) =>
      Some (LogEntry "info" ("Config: " +:+ action +:+ " on: " +:+ name))
  | ev_action action name completed =>
      Some (LogEntry "info" ((if completed then "Stop: " else "Start: ")
                             +:+ action +:+ " on: " +:+ name))
  end.

(** The events with a listener that calls [updateMenu]. *)
Definition refreshes_menu (ev : event) : bool :=
  match ev with
  | ev_ready | ev_config _ | ev_action _ _ _ => true
  | _ => false
  end.


Definition env_darwin : environment :=
  {| platform := "darwin";
     packageJson_build_appId := "com.rclonetray.app";
     packageJson_build_productName := "RcloneTray";
     packageJson_productName := "RcloneTray";
     singleInstanceLock_result := λ _, None;
     config_rclone_options := Some ∅;
     setOptions_result := λ _, Some (JStr "rc: connection refused");
     getBookmarks_result := inr sample_bookmarks;
     CUSTOM_KEYS := sample_keys;
     open_windows := [];
     stopRcloneDaemon_result := None |}.

Definition sample_events : list event :=
  [ev_ready; ev_config None; ev_error (JStr "Mount failed") None;
   ev_action "mount" "A" false; ev_log (LogEntry "warn" "slow remote");
   ev_action "mount" "A" true; ev_config (Some ("update", "B")); ev_ready].


(** The calls that the three [ready] listeners can make. *)
Definition ready_call (e : effect) : bool :=
  match e with
  | E_rclone_setOptions _ | E_updateMenu | E_gui_app_setApplicationMenu
  | E_gui_app_setActivationPolicy _ | E_rclone_getBookmarks
  | E_rclone_mount _ _ | E_rclone_pull _ _ | E_logger_warn _ _ => true
  | _ => false
  end.

(** How many of the events are [ready]. *)
Definition ready_count (evs : list event) : nat :=
  length (filter (λ ev, ev = ev_ready) evs).

(** ** Lemmas on the monad and the listeners *)

Lemma world_eta w :
  World (trace w) (listeners w) (prompts w) (gui_app_id w) (rejections w) = w.
Proof. by destruct w. Qed.

Lemma for_of_reconcile env bs w :
  for_of bs (reconcile_bookmark env) w =
  (Ret tt, extend w (flat_map (bookmark_calls env) bs)).
Proof.
  unfold extend. revert w. induction bs as [|[n c] bs IH]; intros w.
  - cbn [for_of flat_map]. rewrite app_nil_r, world_eta. reflexivity.
  - cbn [for_of flat_map]. unfold mbind at 1, M_bind at 1.
    assert (reconcile_bookmark env (n, c) w =
            (Ret tt, extend w (bookmark_calls env (n, c)))) as ->.
    { unfold bookmark_calls, extend. cbn [fst snd].
      destruct w as [t ls ps i rs]. exec.
      destruct (wants_mount env c), (wants_pull env c); cbn [Datatypes.app];
        rewrite <- ?app_assoc, ?app_nil_r; reflexivity. }
    rewrite IH. unfold extend. cbn [trace listeners prompts gui_app_id rejections].
    by rewrite <- app_assoc.
Qed.

Lemma ready_bookmarks_run env w :
  ready_bookmarks env w =
  (Ret tt, extend w (bookmarks_trace env)).
Proof.
  unfold extend, ready_bookmarks, bookmarks_trace, rclone_getBookmarks, try_catch.
  unfold mbind at 1, M_bind at 1. unfold mbind at 1, M_bind at 1.
  unfold call at 1. destruct (getBookmarks_result env) as [e|bs].
  - exec. by rewrite <- app_assoc.
  - unfold mret, M_ret. rewrite for_of_reconcile. unfold extend. exec. by rewrite <- app_assoc.
Qed.

Lemma app_run env id0 :
  app env (initial_world id0) =
  match singleInstanceLock_result env (lock_id env id0) with
  | None =>
      (Ret tt, World (app_prefix env id0 ++ app_setup) app_listeners [] (lock_id env id0) [])
  | Some e =>
      if bool_decide (toString e = "ALREADY_RUNNING")
      then (Ret tt, World (app_prefix env id0 ++
                             [E_promptError (packageJson_productName env)
                                (already_running_message env) (cb_process_exit 1)])
                          [] [cb_process_exit 1] (lock_id env id0) [])
      else (Throw e, World (app_prefix env id0) [] [] (lock_id env id0) [])
  end.
Proof.
  unfold app_prefix, lock_id. exec.
  destruct (bool_decide (platform env = "win32") || bool_decide (platform env = "linux")).
  - destruct (singleInstanceLock_result env (packageJson_build_appId env)) as [e|];
      [destruct (bool_decide (toString e = "ALREADY_RUNNING"))|]; reflexivity.
  - destruct (singleInstanceLock_result env id0) as [e|];
      [destruct (bool_decide (toString e = "ALREADY_RUNNING"))|]; reflexivity.
Qed.

Lemma bind_ret_run {A B} (m : M A) (f : A → M B) w a w' :
  m w = (Ret a, w') → (m ≫= f) w = f a w'.
Proof. intros H. unfold mbind, M_bind. by rewrite H. Qed.

Lemma extend_extend w t1 t2 : extend (extend w t1) t2 = extend w (t1 ++ t2).
Proof.
  unfold extend. cbn [trace listeners prompts gui_app_id rejections].
  by rewrite <- app_assoc.
Qed.

Lemma extend_rejected w rs t : extend (rejected w rs) t = rejected (extend w t) rs.
Proof. reflexivity. Qed.

Lemma dispatch_setOptions env w :
  dispatch env ev_ready on_ready_setOptions w =
  (Ret tt, rejected (extend w (setOptions_trace env)) (setOptions_rejection env)).
Proof.
  unfold dispatch, is_async, run_listener, setOptions_trace, setOptions_rejection,
    rejected, extend. exec.
  destruct (setOptions_result env (ready_options (config_rclone_options env)));
    by rewrite ?app_nil_r.
Qed.

Lemma dispatch_menu env w :
  dispatch env ev_ready on_ready_menu w = (Ret tt, extend w (menu_trace env)).
Proof.
  unfold dispatch, is_async, run_listener, menu_trace, extend. exec.
  destruct (bool_decide (platform env = "darwin")); by rewrite <- ?app_assoc.
Qed.

Lemma dispatch_bookmarks env w :
  dispatch env ev_ready on_ready_bookmarks w = (Ret tt, extend w (bookmarks_trace env)).
Proof.
  unfold dispatch, is_async, run_listener, try_catch.
  by rewrite ready_bookmarks_run.
Qed.

Lemma listeners_for_ready :
  listeners_for "ready" app_listeners = [on_ready_setOptions; on_ready_menu; on_ready_bookmarks].
Proof. reflexivity. Qed.

Lemma emit_ready_run env w :
  listeners w = app_listeners →
  emit env ev_ready w =
  (Ret tt, rejected (extend w (ready_trace env)) (setOptions_rejection env)).
Proof.
  intros Hl. unfold emit, ready_trace. rewrite Hl. cbn [event_name].
  rewrite listeners_for_ready. cbn [for_of].
  rewrite (bind_ret_run _ _ _ _ _ (dispatch_setOptions env w)).
  rewrite (bind_ret_run _ _ _ _ _ (dispatch_menu env _)).
  rewrite (bind_ret_run _ _ _ _ _ (dispatch_bookmarks env _)).
  by rewrite !extend_rejected, !extend_extend.
Qed.

Lemma startup_ready_world env id0 :
  lock_acquired env id0 →
  startup_then env ev_ready (initial_world id0) =
  (Ret tt, World (app_prefix env id0 ++ app_setup ++ ready_trace env) app_listeners []
                 (lock_id env id0) (setOptions_rejection env)).
Proof.
  intros Hlock. unfold startup_then.
  erewrite bind_ret_run; last by rewrite app_run, Hlock.
  rewrite emit_ready_run by done. unfold rejected, extend.
  cbn [trace listeners prompts gui_app_id rejections Datatypes.app].
  by rewrite <- app_assoc.
Qed.

Lemma startup_ready_run env id0 :
  lock_acquired env id0 →
  run (startup_then env ev_ready) (initial_world id0) =
  (Ret tt, app_prefix env id0 ++ app_setup ++ ready_trace env).
Proof. intros Hlock. unfold run. by rewrite startup_ready_world. Qed.

(** ** Reading the closed forms *)

Lemma wants_mount_spec env (c : gmap string string) :
  wants_mount env c ↔ c !! autoMount (CUSTOM_KEYS env) = Some "true".
Proof. unfold wants_mount. by rewrite bool_decide_spec. Qed.

Lemma wants_pull_spec env (c : gmap string string) :
  wants_pull env c ↔
  c !! pullOnStart (CUSTOM_KEYS env) = Some "true" ∧
  ∃ dir, c !! localDirectory (CUSTOM_KEYS env) = Some dir ∧ dir ≠ "".
Proof.
  unfold wants_pull. rewrite andb_True, bool_decide_spec.
  destruct (c !! localDirectory (CUSTOM_KEYS env)) as [dir|]; cbn [truthy_opt].
  - rewrite negb_True, bool_decide_spec. split.
    + intros [Hp Hd]. split; [done|]. by exists dir.
    + intros [Hp (dir' & [= <-] & Hd)]. done.
  - split; [by intros [_ []]|]. by intros [_ (dir & [=] & _)].
Qed.

(** The loop over the bookmarks makes [mount] and [pull] calls only. *)
Lemma omap_bookmark_calls {A} (f : effect → option A) env bs :
  (∀ n c, f (E_rclone_mount n c) = None) →
  (∀ n c, f (E_rclone_pull n c) = None) →
  omap f (flat_map (bookmark_calls env) bs) = [].
Proof.
  intros Hm Hp. induction bs as [|[n c] bs IH]; [done|].
  cbn [flat_map]. rewrite omap_app, IH. unfold bookmark_calls. cbn [fst snd].
  destruct (wants_mount env c), (wants_pull env c);
    cbn [omap list_omap Datatypes.app]; by rewrite ?Hm, ?Hp.
Qed.

Lemma mount_calls_bookmarks env bs :
  mount_calls (flat_map (bookmark_calls env) bs) = filter (λ b, wants_mount env b.2) bs.
Proof.
  induction bs as [|[n c] bs IH]; [done|].
  cbn [flat_map]. unfold mount_calls in *. rewrite omap_app, IH, filter_cons.
  unfold bookmark_calls. cbn [fst snd].
  destruct (wants_mount env c), (wants_pull env c); by case_decide.
Qed.

Lemma pull_calls_bookmarks env bs :
  pull_calls (flat_map (bookmark_calls env) bs) = filter (λ b, wants_pull env b.2) bs.
Proof.
  induction bs as [|[n c] bs IH]; [done|].
  cbn [flat_map]. unfold pull_calls in *. rewrite omap_app, IH, filter_cons.
  unfold bookmark_calls. cbn [fst snd].
  destruct (wants_mount env c), (wants_pull env c); by case_decide.
Qed.

Lemma ready_cycle_mount_calls env id0 :
  mount_calls (app_prefix env id0 ++ app_setup ++ ready_trace env) =
  match getBookmarks_result env with
  | inl _ => []
  | inr bs => filter (λ b, wants_mount env b.2) bs
  end.
Proof.
  unfold ready_trace, bookmarks_trace.
  rewrite !app_assoc, <- (app_assoc _ _ (menu_trace env)), <- (app_assoc _ app_setup).
  unfold mount_calls at 1. rewrite omap_app.
  replace (omap _ (app_prefix env id0 ++ app_setup ++ setOptions_trace env ++ menu_trace env))
    with (@nil (string * gmap string string)) by before_bookmarks env.
  destruct (getBookmarks_result env) as [e|bs]; [done|].
  cbn [omap Datatypes.app]. apply mount_calls_bookmarks.
Qed.

Lemma ready_cycle_pull_calls env id0 :
  pull_calls (app_prefix env id0 ++ app_setup ++ ready_trace env) =
  match getBookmarks_result env with
  | inl _ => []
  | inr bs => filter (λ b, wants_pull env b.2) bs
  end.
Proof.
  unfold ready_trace, bookmarks_trace.
  rewrite !app_assoc, <- (app_assoc _ _ (menu_trace env)), <- (app_assoc _ app_setup).
  unfold pull_calls at 1. rewrite omap_app.
  replace (omap _ (app_prefix env id0 ++ app_setup ++ setOptions_trace env ++ menu_trace env))
    with (@nil (string * gmap string string)) by before_bookmarks env.
  destruct (getBookmarks_result env) as [e|bs]; [done|].
  cbn [omap Datatypes.app]. apply pull_calls_bookmarks.
Qed.

Lemma ready_cycle_setOptions_calls env id0 :
  setOptions_calls (app_prefix env id0 ++ app_setup ++ ready_trace env) =
  [ready_options (config_rclone_options env)].
Proof.
  unfold ready_trace, setOptions_calls. rewrite !omap_app.
  replace (omap _ (bookmarks_trace env)) with (@nil (gmap string (gmap string scalar))).
  2:{ unfold bookmarks_trace. destruct (getBookmarks_result env); [done|].
      cbn [omap list_omap]. by rewrite omap_bookmark_calls. }
  unfold app_prefix, app_setup, setOptions_trace, menu_trace.
  by destruct (bool_decide (platform env = "win32") || bool_decide (platform env = "linux")),
    (bool_decide (platform env = "darwin")).
Qed.

(** The keys of an object are unique: a name has one bookmark. *)
Lemma unique_names_same_config (bs : bookmarks) name c1 c2 :
  NoDup bs.*1 → (name, c1) ∈ bs → (name, c2) ∈ bs → c1 = c2.
Proof.
  induction bs as [|[n c] bs IH]; cbn [fmap list_fmap fst].
  - by intros _ ?%elem_of_nil.
  - intros [Hn Hnd]%NoDup_cons [H1|H1]%elem_of_cons [H2|H2]%elem_of_cons.
    + congruence.
    + injection H1 as -> ->. destruct Hn. by apply (list_elem_of_fmap_2 fst _ (n, c2)).
    + injection H2 as -> ->. destruct Hn. by apply (list_elem_of_fmap_2 fst _ (n, c1)).
    + by apply IH.
Qed.

(** ** Reconciliation of bookmarks on [ready] *)

(** C3. When the lock is acquired and [getBookmarks] resolves to the
    bookmarks [bs] (names unique, as the keys of an object are), the
    [mount] calls of the [ready] cycle are the bookmarks of [bs] whose
    [autoMount] key is the string ["true"]: those and no others, each
    once; and another order of the entries gives the same calls up to
    order. *)
Theorem C3_mount_exactly_autoMount env id0 bs :
  lock_acquired env id0 →
  getBookmarks_result env = inr bs →
  NoDup bs.*1 →
  let t := (run (startup_then env ev_ready) (initial_world id0)).2 in
  mount_calls t = filter (λ b, wants_mount env b.2) bs ∧
  (∀ name config,
     (name, config) ∈ mount_calls t ↔
     (name, config) ∈ bs ∧ config !! autoMount (CUSTOM_KEYS env) = Some "true") ∧
  NoDup (mount_calls t).*1 ∧
  (∀ bs', bs' ≡ₚ bs →
     mount_calls (run (startup_then (with_getBookmarks env (inr bs')) ev_ready)
                      (initial_world id0)).2 ≡ₚ mount_calls t).
Proof.
  intros Hlock Hbs Hnd t.
  assert (mount_calls t = filter (λ b, wants_mount env b.2) bs) as Ht.
  { subst t. rewrite startup_ready_run by done. cbn [snd].
    by rewrite ready_cycle_mount_calls, Hbs. }
  split; [done|]. rewrite Ht. split; [|split].
  - intros name config. rewrite list_elem_of_filter. cbn [snd].
    rewrite wants_mount_spec. tauto.
  - apply (sublist_NoDup _ _ Hnd). by apply fmap_sublist, sublist_filter.
  - intros bs' Hperm. rewrite startup_ready_run by done. cbn [snd].
    rewrite ready_cycle_mount_calls. cbn [with_getBookmarks getBookmarks_result].
    change (wants_mount (with_getBookmarks env (inr bs'))) with (wants_mount env).
    by rewrite Hperm.
Qed.

Lemma C3_witness :
  mount_calls (run (startup_then env_started ev_ready) (initial_world "")).2 =
  [("A", bookmark_A); ("D", bookmark_D)].
Proof.
  assert (NoDup sample_bookmarks.*1) as Hnd.
  { apply (bool_decide_unpack _). vm_compute. exact I. }
  rewrite (proj1 (C3_mount_exactly_autoMount env_started "" sample_bookmarks
                    eq_refl eq_refl Hnd)).
  reflexivity.
Defined.

(** C4. When the lock is acquired and [getBookmarks] resolves to [bs],
    the [pull] calls of the [ready] cycle are the bookmarks whose
    [pullOnStart] key is ["true"] and whose [localDirectory] key holds a
    non-empty string.  A bookmark that meets both conditions is mounted
    and pulled; one that meets neither is not named in any call. *)
Theorem C4_pull_exactly_pullOnStart env id0 bs :
  lock_acquired env id0 →
  getBookmarks_result env = inr bs →
  NoDup bs.*1 →
  let t := (run (startup_then env ev_ready) (initial_world id0)).2 in
  pull_calls t = filter (λ b, wants_pull env b.2) bs ∧
  (∀ name config,
     (name, config) ∈ pull_calls t ↔
     (name, config) ∈ bs ∧
     config !! pullOnStart (CUSTOM_KEYS env) = Some "true" ∧
     ∃ dir, config !! localDirectory (CUSTOM_KEYS env) = Some dir ∧ dir ≠ "") ∧
  (∀ name config,
     (name, config) ∈ bs → wants_mount env config → wants_pull env config →
     (name, config) ∈ mount_calls t ∧ (name, config) ∈ pull_calls t) ∧
  (∀ name config,
     (name, config) ∈ bs → wants_mount env config = false → wants_pull env config = false →
     (name ∉ (mount_calls t).*1) ∧ (name ∉ (pull_calls t).*1)).
Proof.
  intros Hlock Hbs Hnd t.
  assert (pull_calls t = filter (λ b, wants_pull env b.2) bs) as Hp.
  { subst t. rewrite startup_ready_run by done. cbn [snd].
    by rewrite ready_cycle_pull_calls, Hbs. }
  assert (mount_calls t = filter (λ b, wants_mount env b.2) bs) as Hm.
  { subst t. rewrite startup_ready_run by done. cbn [snd].
    by rewrite ready_cycle_mount_calls, Hbs. }
  rewrite Hp, Hm. split; [done|]. split; [|split].
  - intros name config. rewrite list_elem_of_filter. cbn [snd].
    rewrite wants_pull_spec. tauto.
  - intros name config Hin Hwm Hwp. by rewrite !list_elem_of_filter.
  - intros name config Hin Hwm Hwp.
    split; intros ([n c] & -> & [Hw Hc]%list_elem_of_filter)%list_elem_of_fmap;
      cbn [fst snd] in *; rewrite (unique_names_same_config _ _ _ _ Hnd Hc Hin) in Hw;
      [rewrite Hwm in Hw | rewrite Hwp in Hw]; exact Hw.
Qed.

Lemma C4_witness :
  let t := (run (startup_then env_started ev_ready) (initial_world "")).2 in
  pull_calls t = [("B", bookmark_B); ("D", bookmark_D)] ∧
  (("D", bookmark_D) ∈ mount_calls t ∧ ("D", bookmark_D) ∈ pull_calls t) ∧
  ((("C" : string) ∉ (mount_calls t).*1) ∧ (("C" : string) ∉ (pull_calls t).*1)).
Proof.
  assert (NoDup sample_bookmarks.*1) as Hnd.
  { apply (bool_decide_unpack _). vm_compute. exact I. }
  destruct (C4_pull_exactly_pullOnStart env_started "" sample_bookmarks
              eq_refl eq_refl Hnd) as (Hp & _ & Hboth & Hnone).
  split; [|split].
  - rewrite Hp. reflexivity.
  - apply (Hboth "D" bookmark_D); [|vm_compute; exact I..].
    apply (bool_decide_unpack _). vm_compute. exact I.
  - apply (Hnone "C" bookmark_C); [|vm_compute; reflexivity..].
    apply (bool_decide_unpack _). vm_compute. exact I.
Defined.

(** ** Failure of the bookmark fetch *)

(** C7. When the lock is acquired and [getBookmarks] is rejected with
    [e], the [ready] cycle makes no [mount] and no [pull] call, logs the
    one warning ["Cannot fetch bookmarks upon start."] with the text of
    [e], and calls [getBookmarks] once.  Its [setOptions] step is what
    it is under every other answer of [getBookmarks]: one call with the
    merged options, and the listener's promise rejected exactly when
    [setOptions] is. *)
Theorem C7_fetch_failure_skips_reconciliation env id0 e :
  lock_acquired env id0 →
  getBookmarks_result env = inl e →
  let w := (startup_then env ev_ready (initial_world id0)).2 in
  mount_calls (trace w) = [] ∧
  pull_calls (trace w) = [] ∧
  warnings (trace w) = [("Cannot fetch bookmarks upon start.", toString e)] ∧
  getBookmarks_calls (trace w) = 1 ∧
  setOptions_calls (trace w) = [ready_options (config_rclone_options env)] ∧
  rejections w = setOptions_rejection env ∧
  (∀ r, let w' := (startup_then (with_getBookmarks env r) ev_ready (initial_world id0)).2 in
        setOptions_calls (trace w') = setOptions_calls (trace w) ∧
        rejections w' = rejections w).
Proof.
  intros Hlock He w. subst w. rewrite startup_ready_world by done.
  cbn [snd trace rejections].
  rewrite ready_cycle_mount_calls, ready_cycle_pull_calls, ready_cycle_setOptions_calls, He.
  split; [done|]. split; [done|]. split; [|split; [|split; [done|split; [done|]]]].
  - unfold ready_trace, bookmarks_trace, warnings. rewrite He, !omap_app.
    unfold app_prefix, app_setup, setOptions_trace, menu_trace.
    by destruct (bool_decide (platform env = "win32") || bool_decide (platform env = "linux")),
      (bool_decide (platform env = "darwin")).
  - unfold ready_trace, bookmarks_trace, getBookmarks_calls. rewrite He, !filter_app.
    unfold app_prefix, app_setup, setOptions_trace, menu_trace.
    by destruct (bool_decide (platform env = "win32") || bool_decide (platform env = "linux")),
      (bool_decide (platform env = "darwin")).
  - intros r. rewrite startup_ready_world by done.
    cbn [snd trace rejections]. by rewrite ready_cycle_setOptions_calls.
Qed.

Lemma C7_witness :
  let t := trace (startup_then env_fetch_fails ev_ready (initial_world "")).2 in
  mount_calls t = [] ∧ pull_calls t = [] ∧
  warnings t = [("Cannot fetch bookmarks upon start.", "Error: connection refused")] ∧
  getBookmarks_calls t = 1.
Proof.
  destruct (C7_fetch_failure_skips_reconciliation env_fetch_fails ""
              (JError "Error" "connection refused") eq_refl eq_refl)
    as (Hm & Hp & Hw & Hg & _).
  split; [exact Hm|]. split; [exact Hp|]. split; [exact Hw | exact Hg].
Defined.

(** ** Other events in the world that [app] leaves *)

Lemma emit_invalid_config_pass_run env w message :
  listeners w = app_listeners →
  emit env (ev_invalid_config_pass message) w =
  (Ret tt, World (trace w ++ [E_logInsert (LogEntry "error" "Invalid Rclone password");
                              E_promptError "Invalid Rclone password" message
                                            (cb_process_exit 1)])
                 (listeners w) (prompts w ++ [cb_process_exit 1]) (gui_app_id w)
                 (rejections w)).
Proof.
  destruct w as [t ls ps i rs]. cbn [listeners]. intros ->.
  unfold emit. cbn [event_name listeners].
  change (listeners_for "invalid-config-pass" app_listeners) with [on_invalid_config_pass].
  cbn [for_of]. unfold dispatch, is_async, run_listener. exec.
  by rewrite <- app_assoc.
Qed.

Lemma emit_error_run env w error reason :
  listeners w = app_listeners →
  emit env (ev_error error reason) w =
  (Ret tt, extend w [E_sendNotification (error_message error reason);
                     E_logger_log "!!!RCLONE_ERROR!!!" (error_message error reason);
                     E_logInsert (LogErrorEvent error reason)]).
Proof.
  destruct w as [t ls ps i rs]. cbn [listeners]. intros ->.
  unfold emit. cbn [event_name listeners].
  change (listeners_for "error" app_listeners) with [on_error_notify; on_error_logInsert].
  cbn [for_of]. unfold dispatch, is_async, run_listener, extend. exec.
  by rewrite <- !app_assoc.
Qed.

Lemma append_empty_r (s : string) : s +:+ "" = s.
Proof.
  induction s as [|a s IH]; [done|].
  change (String a (s +:+ "") = String a s). by rewrite IH.
Qed.

(** What the part of the trace that [app] itself produces contains. *)
Lemma app_trace_quiet env id0 :
  log_store (app_prefix env id0 ++ app_setup) = [] ∧
  prompts_shown (app_prefix env id0 ++ app_setup) = [] ∧
  notifications (app_prefix env id0 ++ app_setup) = [] ∧
  E_stopRcloneDaemon ∉ app_prefix env id0 ++ app_setup.
Proof.
  unfold app_prefix, app_setup.
  destruct (bool_decide (platform env = "win32") || bool_decide (platform env = "linux"));
    cbn [Datatypes.app]; (split; [done|]); (split; [done|]); (split; [done|]);
    intros H; repeat (apply elem_of_cons in H as [H|H]; [discriminate|]);
    by apply elem_of_nil in H.
Qed.

(** ** Options applied on [ready] *)

Lemma ready_options_section (overrides : option (gmap string (gmap string scalar))) s :
  ready_options overrides !! s =
  match default ∅ overrides !! s with
  | Some sec => Some sec
  | None => builtin_options !! s
  end.
Proof.
  unfold ready_options, object_spread. rewrite lookup_union.
  by destruct (default ∅ overrides !! s), (builtin_options !! s).
Qed.

(** C1, as the code has it.  When the lock is acquired, the [ready]
    cycle calls [setOptions] once, with an object in which a section of
    the overrides stands as a whole and a section that the overrides
    lack is the built-in one.  So a value of the overrides wins for its
    key, and the keys of a section that the overrides do not have keep
    their built-in values. *)
Theorem C1_options_merged_per_section env id0 :
  lock_acquired env id0 →
  let overrides := default ∅ (config_rclone_options env) in
  ∃ merged,
    setOptions_calls (run (startup_then env ev_ready) (initial_world id0)).2 = [merged] ∧
    (∀ s, merged !! s = match overrides !! s with
                        | Some sec => Some sec
                        | None => builtin_options !! s
                        end) ∧
    (∀ s k v, option_lookup overrides s k = Some v → option_lookup merged s k = Some v) ∧
    (∀ s k, overrides !! s = None →
            option_lookup merged s k = option_lookup builtin_options s k).
Proof.
  intros Hlock overrides. exists (ready_options (config_rclone_options env)).
  rewrite startup_ready_run by done. cbn [snd].
  split; [apply ready_cycle_setOptions_calls|].
  split; [apply ready_options_section|]. unfold option_lookup. split.
  - intros s k v. rewrite ready_options_section. fold overrides.
    by destruct (overrides !! s).
  - intros s k Hs. rewrite ready_options_section. fold overrides. by rewrite Hs.
Qed.

Lemma C1_witness :
  ∃ merged,
    setOptions_calls (run (startup_then env_overrides ev_ready) (initial_world "")).2 = [merged] ∧
    option_lookup merged "vfs" "Timeout" = Some (SNum 20) ∧
    option_lookup merged "mount" "Daemon" = Some (SBool false).
Proof.
  destruct (C1_options_merged_per_section env_overrides "" eq_refl)
    as (merged & Hcall & _ & Hkey & Hsec).
  exists merged. split; [exact Hcall|]. split.
  - apply Hkey. vm_compute. reflexivity.
  - rewrite Hsec; vm_compute; reflexivity.
Defined.

(** The sentence of C1 fails on the code: with the override
    [{vfs: {Timeout: 20}}] the object given to [setOptions] has no
    [vfs.DirCacheTime], a key that the overrides do not mention and
    whose built-in value is 3. *)
Lemma C1_counterexample :
  ∃ merged,
    setOptions_calls (run (startup_then env_overrides ev_ready) (initial_world "")).2 = [merged] ∧
    option_lookup overrides_timeout "vfs" "DirCacheTime" = None ∧
    option_lookup builtin_options "vfs" "DirCacheTime" = Some (SNum 3) ∧
    option_lookup merged "vfs" "DirCacheTime" = None ∧
    ¬ merged_key_by_key builtin_options overrides_timeout merged.
Proof.
  exists (ready_options (Some overrides_timeout)).
  split.
  { rewrite startup_ready_run by reflexivity. cbn [snd].
    apply (ready_cycle_setOptions_calls env_overrides). }
  split; [vm_compute; reflexivity|]. split; [vm_compute; reflexivity|].
  split; [vm_compute; reflexivity|].
  intros H. specialize (H "vfs" "DirCacheTime"). vm_compute in H. discriminate H.
Qed.

(** ** The [invalid-config-pass] event *)

(** C2, as the code has it.  When the lock is acquired and the daemon
    emits [invalid-config-pass] with [message], one entry is put into the
    log store, of level ["error"] and text ["Invalid Rclone password"];
    an error prompt with that title and [message] is shown; the process
    keeps running until the prompt is acknowledged, and then exits with
    code 1 without a call of [stopRcloneDaemon]. *)
Theorem C2_invalid_config_pass_is_terminal env id0 message :
  lock_acquired env id0 →
  let event := ev_invalid_config_pass message in
  let shown := run (startup_then env event) (initial_world id0) in
  let acknowledged := run (startup_then_acknowledge env event) (initial_world id0) in
  shown.1 = Ret tt ∧
  log_store shown.2 = [LogEntry "error" "Invalid Rclone password"] ∧
  prompts_shown shown.2 = [("Invalid Rclone password", message)] ∧
  acknowledged = (Exit 1, shown.2 ++ [E_process_exit 1]) ∧
  E_stopRcloneDaemon ∉ acknowledged.2.
Proof.
  intros Hlock event shown acknowledged. subst event.
  assert (startup_then env (ev_invalid_config_pass message) (initial_world id0) =
          (Ret tt, World ((app_prefix env id0 ++ app_setup) ++
                          [E_logInsert (LogEntry "error" "Invalid Rclone password");
                           E_promptError "Invalid Rclone password" message (cb_process_exit 1)])
                         app_listeners [cb_process_exit 1] (lock_id env id0) [])) as Hrun.
  { unfold startup_then. erewrite bind_ret_run; last by rewrite app_run, Hlock.
    by rewrite emit_invalid_config_pass_run. }
  destruct (app_trace_quiet env id0) as (Hlog & Hprompt & _ & Hstop).
  subst shown acknowledged. unfold run, startup_then_acknowledge.
  rewrite (bind_ret_run _ _ _ _ _ Hrun), Hrun. cbn [fst snd trace].
  split; [done|]. split; [|split; [|split]].
  - unfold log_store in *. rewrite omap_app, Hlog. reflexivity.
  - unfold prompts_shown in *. rewrite omap_app, Hprompt. reflexivity.
  - reflexivity.
  - exec. cbn [snd]. intros [[H|H]%elem_of_app|H]%elem_of_app; [done| |].
    + repeat (apply elem_of_cons in H as [H|H]; [discriminate|]). by apply elem_of_nil in H.
    + repeat (apply elem_of_cons in H as [H|H]; [discriminate|]). by apply elem_of_nil in H.
Qed.

Lemma C2_witness :
  (run (startup_then_acknowledge env_started (ev_invalid_config_pass "wrong password"))
       (initial_world "")).1 = Exit 1.
Proof.
  destruct (C2_invalid_config_pass_is_terminal env_started "" "wrong password" eq_refl)
    as (_ & _ & _ & Hack & _).
  rewrite Hack. reflexivity.
Defined.

(** The sentence of C2 fails on the code: the entry that the listener
    puts into the log store does not read ["Invalid credentials"]. *)
Lemma C2_counterexample :
  let t := (run (startup_then env_started (ev_invalid_config_pass "wrong password"))
                (initial_world "")).2 in
  log_store t = [LogEntry "error" "Invalid Rclone password"] ∧
  LogEntry "error" "Invalid credentials" ∉ log_store t.
Proof.
  assert (log_store (run (startup_then env_started (ev_invalid_config_pass "wrong password"))
                         (initial_world "")).2
          = [LogEntry "error" "Invalid Rclone password"]) as H by (vm_compute; reflexivity).
  cbv zeta. rewrite H. split; [done|].
  intros Hin. apply elem_of_cons in Hin as [Hin|Hin]; [discriminate Hin|].
  by apply elem_of_nil in Hin.
Qed.

(** ** The [error] event *)

(** C8, as the code has it.  When the lock is acquired and the daemon
    emits [error], one notification is sent; its text is the text of
    the error, a newline and the text of the reason when the reason is
    there and truthy, and the text of the error alone when the reason
    is missing or is the empty string. *)
Theorem C8_error_notification_message env id0 error reason :
  lock_acquired env id0 →
  let message := error_message error reason in
  notifications (run (startup_then env (ev_error error reason)) (initial_world id0)).2
    = [message] ∧
  (∀ r, reason = Some r → truthy r = true →
        message = toString error +:+ newline +:+ toString r) ∧
  (reason = None ∨ reason = Some (JStr "") → message = toString error).
Proof.
  intros Hlock message. subst message. split; [|split].
  - unfold run, startup_then. erewrite bind_ret_run; last by rewrite app_run, Hlock.
    rewrite emit_error_run by done. unfold extend. cbn [fst snd trace].
    destruct (app_trace_quiet env id0) as (_ & _ & Hnote & _).
    unfold notifications in *. rewrite omap_app, Hnote. reflexivity.
  - intros r -> Hr. unfold error_message. by rewrite Hr.
  - intros [-> | ->]; unfold error_message; cbn [truthy negb];
      rewrite ?bool_decide_eq_true_2 by done; apply append_empty_r.
Qed.

Lemma C8_witness :
  error_message (JStr "Mount failed") (Some (JError "Error" "no such remote")) =
  "Mount failed" +:+ newline +:+ "Error: no such remote".
Proof.
  exact (proj1 (proj2 (C8_error_notification_message env_started "" (JStr "Mount failed")
                         (Some (JError "Error" "no such remote")) eq_refl))
               (JError "Error" "no such remote") eq_refl eq_refl).
Defined.

(** The sentence of C8 fails on the code: with the empty string as the
    reason, the reason is there but the notification is the text of the
    error alone, without the newline. *)
Lemma C8_counterexample :
  notifications (run (startup_then env_started (ev_error (JStr "Mount failed") (Some (JStr ""))))
                     (initial_world "")).2 = ["Mount failed"] ∧
  "Mount failed" ≠ toString (JStr "Mount failed") +:+ newline +:+ toString (JStr "").
Proof. split; [vm_compute; reflexivity | discriminate]. Qed.

(** ** The single-instance lock *)

Lemma app_prefix_quiet env id0 :
  prompts_shown (app_prefix env id0) = [] ∧
  (E_rclone_setupDaemon ∉ app_prefix env id0) ∧
  (∀ code, E_process_exit code ∉ app_prefix env id0) ∧
  head (app_prefix env id0) = Some E_setUncaughtExceptionCaptureCallback.
Proof.
  unfold app_prefix.
  destruct (bool_decide (platform env = "win32") || bool_decide (platform env = "linux"));
    cbn [Datatypes.app]; (split; [done|]); (split; [|split; [intros code|done]]);
    intros H; repeat (apply elem_of_cons in H as [H|H]; [discriminate|]);
    by apply elem_of_nil in H.
Qed.

(** C5. When [singleInstanceLock] is rejected with a value whose
    string form is ["ALREADY_RUNNING"], [app] returns after it has shown
    the prompt that names the product, with no listener registered and
    no call of [setupDaemon]; when the prompt is acknowledged the
    process exits with code 1, and [setupDaemon] has still not been
    called. *)
Theorem C5_already_running_never_starts_daemon env id0 e :
  singleInstanceLock_result env (lock_id env id0) = Some e →
  toString e = "ALREADY_RUNNING" →
  let started := app env (initial_world id0) in
  let acknowledged := run (app_then_acknowledge env) (initial_world id0) in
  started.1 = Ret tt ∧
  listeners started.2 = [] ∧
  prompts_shown (trace started.2) =
    [(packageJson_productName env, already_running_message env)] ∧
  acknowledged = (Exit 1, trace started.2 ++ [E_process_exit 1]) ∧
  E_rclone_setupDaemon ∉ acknowledged.2.
Proof.
  intros Hlock He started acknowledged. subst started acknowledged.
  unfold run, app_then_acknowledge.
  assert (app env (initial_world id0) =
          (Ret tt, World (app_prefix env id0 ++
                            [E_promptError (packageJson_productName env)
                               (already_running_message env) (cb_process_exit 1)])
                         [] [cb_process_exit 1] (lock_id env id0) [])) as Hrun.
  { by rewrite app_run, Hlock, bool_decide_eq_true_2. }
  rewrite (bind_ret_run _ _ _ _ _ Hrun), Hrun. cbn [fst snd trace listeners].
  destruct (app_prefix_quiet env id0) as (Hprompt & Hsetup & _ & _).
  split; [done|]. split; [done|]. split; [|split].
  - unfold prompts_shown in *. rewrite omap_app, Hprompt. reflexivity.
  - reflexivity.
  - exec. cbn [snd]. intros [[H|H]%elem_of_app|H]%elem_of_app; [done| |].
    + repeat (apply elem_of_cons in H as [H|H]; [discriminate|]). by apply elem_of_nil in H.
    + repeat (apply elem_of_cons in H as [H|H]; [discriminate|]). by apply elem_of_nil in H.
Qed.

Lemma C5_witness :
  (run (app_then_acknowledge env_already_running) (initial_world "")).1 = Exit 1 ∧
  E_rclone_setupDaemon ∉ (run (app_then_acknowledge env_already_running) (initial_world "")).2.
Proof.
  destruct (C5_already_running_never_starts_daemon env_already_running ""
              (JStr "ALREADY_RUNNING") eq_refl eq_refl) as (_ & _ & _ & Hack & Hsetup).
  split; [rewrite Hack; reflexivity | exact Hsetup].
Defined.

(** C10. When [singleInstanceLock] is rejected with [e]: if the string
    form of [e] is ["ALREADY_RUNNING"], [app] shows the prompt and the
    process exits with code 1 once it is acknowledged; if it is anything
    else, [app] throws [e] again, after the handler for uncaught
    exceptions was installed, with no prompt, no exit and no call of
    [setupDaemon], and there is no prompt to acknowledge. *)
Theorem C10_only_already_running_prompts env id0 e :
  singleInstanceLock_result env (lock_id env id0) = Some e →
  let started := run (app env) (initial_world id0) in
  let acknowledged := run (app_then_acknowledge env) (initial_world id0) in
  (toString e = "ALREADY_RUNNING" →
     started.1 = Ret tt ∧
     prompts_shown started.2 = [(packageJson_productName env, already_running_message env)] ∧
     acknowledged.1 = Exit 1) ∧
  (toString e ≠ "ALREADY_RUNNING" →
     started = (Throw e, app_prefix env id0) ∧
     acknowledged = started ∧
     head started.2 = Some E_setUncaughtExceptionCaptureCallback ∧
     prompts_shown started.2 = [] ∧
     (∀ code, E_process_exit code ∉ started.2) ∧
     E_rclone_setupDaemon ∉ started.2).
Proof.
  intros Hlock started acknowledged. subst started acknowledged.
  unfold run, app_then_acknowledge, mbind, M_bind. rewrite app_run, Hlock.
  destruct (app_prefix_quiet env id0) as (Hprompt & Hsetup & Hexit & Hhead).
  split; intros He.
  - rewrite bool_decide_eq_true_2 by done. cbn [fst snd trace].
    split; [done|]. split; [|reflexivity].
    unfold prompts_shown in *. rewrite omap_app, Hprompt. reflexivity.
  - rewrite bool_decide_eq_false_2 by done. cbn [fst snd trace]. done.
Qed.

Lemma C10_witness :
  run (app env_lock_error) (initial_world "") =
  (Throw (JError "Error" "ALREADY_RUNNING"), app_prefix env_lock_error "").
Proof.
  refine (proj1 (proj2 (C10_only_already_running_prompts env_lock_error ""
                          (JError "Error" "ALREADY_RUNNING") eq_refl) _)).
  vm_compute. discriminate.
Defined.

(** ** Shutdown *)

Lemma win_close_run win w :
  win_close win w =
  (match close_result win with Some e => Throw e | None => Ret tt end,
   extend w [E_win_close (win_id win)]).
Proof. unfold extend. exec. by destruct (close_result win). Qed.

Lemma for_of_win_close ws w :
  for_of ws win_close w =
  (match (close_windows ws).2 with Some e => Throw e | None => Ret tt end,
   extend w (close_windows ws).1).
Proof.
  revert w. induction ws as [|win ws IH]; intros w.
  - unfold extend. cbn [for_of close_windows fst snd]. by rewrite app_nil_r, world_eta.
  - cbn [for_of close_windows]. unfold mbind at 1, M_bind at 1.
    rewrite win_close_run. destruct (close_result win) as [e|]; [done|].
    rewrite IH, extend_extend. cbn [fst snd Datatypes.app].
    by destruct (close_windows ws).2.
Qed.

Lemma appQuit_run env w :
  appQuit env w =
  (Exit (exit_code env), extend w (appQuit_trace env)).
Proof.
  unfold appQuit, forEach, exit_code, shutdown_failure, appQuit_trace.
  unfold mbind at 1, M_bind at 1. unfold try_catch at 1.
  unfold mbind at 1, M_bind at 1. rewrite for_of_win_close.
  destruct (close_windows (open_windows env)).2 as [e|].
  - unfold extend. exec. by rewrite <- !app_assoc.
  - unfold extend. exec. destruct (stopRcloneDaemon_result env) as [e|];
      by rewrite <- !app_assoc.
Qed.

Lemma close_windows_ok ws :
  (close_windows ws).2 = None ↔ Forall (λ win, close_result win = None) ws.
Proof.
  induction ws as [|win ws IH]; cbn [close_windows].
  - split; [constructor | done].
  - rewrite Forall_cons. destruct (close_result win); cbn [snd].
    + split; [done | by intros [? _]].
    + rewrite IH. tauto.
Qed.

Lemma close_windows_calls ws :
  warnings (close_windows ws).1 = [] ∧ E_stopRcloneDaemon ∉ (close_windows ws).1.
Proof.
  induction ws as [|win ws [IHw IHs]]; cbn [close_windows].
  - split; [done | apply not_elem_of_nil].
  - destruct (close_result win); cbn [fst].
    + split; [done|]. intros [H|H%elem_of_nil]%elem_of_cons; [discriminate | done].
    + split; [exact IHw|]. intros [H|H]%elem_of_cons; [discriminate | done].
Qed.

(** C6. [appQuit] always ends in [process.exit], with code 0 or 1.  The
    code is 0 exactly when every [close()] returned and
    [stopRcloneDaemon] resolved, and then nothing is warned.  With code
    1 the one warning ["Exit with errors."] carries the text of the
    first failure.  A rejected [stopRcloneDaemon] gives code 1, and so
    does a [close()] that throws. *)
Theorem C6_shutdown_always_exits env w :
  ∃ code t,
    appQuit env w = (Exit code, extend w t) ∧
    (code = 0 ∨ code = 1)%Z ∧
    (code = 0%Z ↔ steps_completed env) ∧
    last t = Some (E_process_exit code) ∧
    (code = 0%Z → warnings t = []) ∧
    (code = 1%Z → ∃ e, shutdown_failure env = Some e ∧
                       warnings t = [("Exit with errors.", toString e)]) ∧
    (is_Some (stopRcloneDaemon_result env) → code = 1%Z) ∧
    (Exists (λ win, is_Some (close_result win)) (open_windows env) → code = 1%Z).
Proof.
  exists (exit_code env), (appQuit_trace env). split; [apply appQuit_run|].
  unfold exit_code, shutdown_failure, appQuit_trace, steps_completed.
  rewrite <- close_windows_ok.
  destruct (close_windows_calls (open_windows env)) as [Hw _].
  assert (Exists (λ win, is_Some (close_result win)) (open_windows env) →
          (close_windows (open_windows env)).2 ≠ None) as Hex.
  { intros Hex Hnone%close_windows_ok. apply Exists_exists in Hex as (win & Hin & [e He]).
    rewrite Forall_forall in Hnone. by rewrite (Hnone win Hin) in He. }
  unfold warnings in *.
  destruct (close_windows (open_windows env)).2 as [e|].
  - split; [by right|]. split; [split; [done | by intros [? _]]|].
    split; [by rewrite last_app|]. split; [done|].
    split; [intros _; exists e; split; [done|]; by rewrite omap_app, Hw|]. done.
  - destruct (stopRcloneDaemon_result env) as [e|].
    + split; [by right|]. split; [split; [done | by intros [_ ?]]|].
      split; [by rewrite last_app|]. split; [done|].
      split; [intros _; exists e; split; [done|]; by rewrite omap_app, Hw|]. done.
    + split; [by left|]. split; [done|].
      split; [by rewrite last_app|]. split; [intros _; by rewrite omap_app, Hw|].
      split; [done|]. split; [by intros [? ?] | by intros ?%Hex].
Qed.

Lemma C6_witness :
  (run (appQuit (env_quit [window_ok 0; window_ok 1] (Some (JStr "daemon does not answer"))))
       (initial_world "")).1 = Exit 1.
Proof.
  destruct (C6_shutdown_always_exits
              (env_quit [window_ok 0; window_ok 1] (Some (JStr "daemon does not answer")))
              (initial_world "")) as (code & t & Hrun & _ & _ & _ & _ & _ & Hstop & _).
  unfold run. rewrite Hrun. cbn [fst]. f_equal. apply Hstop. by eexists.
Defined.

(** C9. When the [close()] of an open window throws, [appQuit] makes no
    call of [stopRcloneDaemon] and the process exits with code 1. *)
Theorem C9_ui_throw_skips_daemon_stop env w win e :
  win ∈ open_windows env →
  close_result win = Some e →
  E_stopRcloneDaemon ∉ trace w →
  let r := run (appQuit env) w in
  r.1 = Exit 1 ∧ E_stopRcloneDaemon ∉ r.2.
Proof.
  intros Hin He Hw r. subst r. unfold run. rewrite appQuit_run. cbn [fst snd].
  unfold exit_code, shutdown_failure, appQuit_trace, extend. cbn [trace].
  destruct (close_windows_calls (open_windows env)) as [_ Hs].
  destruct (close_windows (open_windows env)).2 as [e'|] eqn:Hc.
  - split; [done|]. intros [H|[H|H]%elem_of_app]%elem_of_app; [done..|].
    repeat (apply elem_of_cons in H as [H|H]; [discriminate|]). by apply elem_of_nil in H.
  - apply close_windows_ok in Hc. rewrite Forall_forall in Hc.
    by rewrite (Hc win Hin) in He.
Qed.

Lemma C9_witness :
  let r := run (appQuit (env_quit [window_ok 0; window_stuck 1; window_ok 2] None))
               (initial_world "") in
  r.1 = Exit 1 ∧ E_stopRcloneDaemon ∉ r.2.
Proof.
  apply (C9_ui_throw_skips_daemon_stop
           (env_quit [window_ok 0; window_stuck 1; window_ok 2] None)
           (initial_world "") (window_stuck 1) (JError "Error" "window is busy")).
  - apply (bool_decide_unpack _). vm_compute. exact I.
  - reflexivity.
  - apply not_elem_of_nil.
Defined.

(** ** Every event in the world that [app] leaves *)

Lemma emit_config_run env w info :
  listeners w = app_listeners →
  emit env (ev_config info) w = (Ret tt, extend w (event_trace env (ev_config info))).
Proof.
  destruct w as [t ls ps i rs]. cbn [listeners]. intros ->.
  unfold emit. cbn [event_name listeners].
  change (listeners_for "config" app_listeners)
    with [on_config_updateMenu; on_config_logInsert].
  cbn [for_of]. unfold dispatch, is_async, run_listener, extend.
  destruct info as [[action name]|]; exec; by rewrite <- !app_assoc.
Qed.

Lemma emit_action_run env w action name completed :
  listeners w = app_listeners →
  emit env (ev_action action name completed) w =
  (Ret tt, extend w (event_trace env (ev_action action name completed))).
Proof.
  destruct w as [t ls ps i rs]. cbn [listeners]. intros ->.
  unfold emit. cbn [event_name listeners].
  change (listeners_for "action" app_listeners)
    with [on_action_updateMenu; on_action_logInsert].
  cbn [for_of]. unfold dispatch, is_async, run_listener, extend.
  destruct completed; exec; by rewrite <- !app_assoc.
Qed.

Lemma emit_log_run env w entry :
  listeners w = app_listeners →
  emit env (ev_log entry) w = (Ret tt, extend w (event_trace env (ev_log entry))).
Proof.
  destruct w as [t ls ps i rs]. cbn [listeners]. intros ->.
  unfold emit. cbn [event_name listeners].
  change (listeners_for "log" app_listeners) with [on_log_logInsert].
  cbn [for_of]. unfold dispatch, is_async, run_listener, extend. by exec.
Qed.

Lemma emit_run env ev w :
  listeners w = app_listeners →
  emit env ev w =
  (Ret tt, World (trace w ++ event_trace env ev) app_listeners
                 (prompts w ++ event_prompts ev) (gui_app_id w)
                 (rejections w ++ event_rejections env ev)).
Proof.
  intros Hl. destruct ev.
  - rewrite emit_error_run by done. unfold extend. cbn [event_prompts event_rejections].
    by rewrite !app_nil_r, Hl.
  - rewrite emit_config_run by done. unfold extend. cbn [event_prompts event_rejections].
    by rewrite !app_nil_r, Hl.
  - rewrite emit_action_run by done. unfold extend. cbn [event_prompts event_rejections].
    by rewrite !app_nil_r, Hl.
  - rewrite emit_ready_run by done. unfold rejected, extend.
    cbn [event_prompts event_rejections trace listeners prompts gui_app_id rejections].
    by rewrite !app_nil_r, Hl.
  - rewrite emit_log_run by done. unfold extend. cbn [event_prompts event_rejections].
    by rewrite !app_nil_r, Hl.
  - rewrite emit_invalid_config_pass_run by done. cbn [event_prompts event_rejections].
    by rewrite !app_nil_r, Hl.
Qed.

Lemma emit_all_run env evs w :
  listeners w = app_listeners →
  for_of evs (emit env) w =
  (Ret tt, World (trace w ++ flat_map (event_trace env) evs) app_listeners
                 (prompts w ++ flat_map event_prompts evs) (gui_app_id w)
                 (rejections w ++ flat_map (event_rejections env) evs)).
Proof.
  revert w. induction evs as [|ev evs IH]; intros w Hl.
  - cbn [for_of flat_map]. rewrite !app_nil_r, <- Hl. by rewrite world_eta.
  - cbn [for_of flat_map].
    rewrite (bind_ret_run _ _ _ _ _ (emit_run env ev w Hl)), IH by done.
    cbn [trace listeners prompts gui_app_id rejections]. by rewrite <- !app_assoc.
Qed.

Lemma startup_then_all_run env id0 evs :
  lock_acquired env id0 →
  startup_then_all env evs (initial_world id0) =
  (Ret tt, World ((app_prefix env id0 ++ app_setup) ++ flat_map (event_trace env) evs)
                 app_listeners (flat_map event_prompts evs) (lock_id env id0)
                 (flat_map (event_rejections env) evs)).
Proof.
  intros Hlock. unfold startup_then_all.
  erewrite bind_ret_run; last by rewrite app_run, Hlock.
  by rewrite emit_all_run.
Qed.

(** ** Start-up as a whole *)

(** Case analysis on the three ways [app] ends. *)
Ltac app_cases env id0 :=
  rewrite app_run; unfold app_prefix, app_setup, lock_id;
  destruct (bool_decide (platform env = "win32") || bool_decide (platform env = "linux"));
  [destruct (singleInstanceLock_result env (packageJson_build_appId env))
  |destruct (singleInstanceLock_result env id0)];
  try match goal with
      | |- context [bool_decide (toString ?x = "ALREADY_RUNNING")] =>
          destruct (bool_decide (toString x = "ALREADY_RUNNING"))
      end.

(** X1. In every environment [app] creates the tray menu once and
    calls [setupDaemon] once when the lock is acquired, and does neither
    when it is not; it leaves its eleven listeners registered in the
    first case and none in the second. *)
Theorem X1_daemon_started_iff_lock_acquired env id0 :
  let w := (app env (initial_world id0)).2 in
  calls_of E_rclone_setupDaemon (trace w) =
    match singleInstanceLock_result env (lock_id env id0) with
    | None => 1
    | Some _ => 0
    end ∧
  calls_of E_createTrayMenu (trace w) =
    match singleInstanceLock_result env (lock_id env id0) with
    | None => 1
    | Some _ => 0
    end ∧
  listeners w =
    match singleInstanceLock_result env (lock_id env id0) with
    | None => app_listeners
    | Some _ => []
    end.
Proof. cbv zeta. app_cases env id0; by repeat split. Qed.

(** X2. In every environment the first call of [app] installs the
    handler for uncaught exceptions, and it does so once; the lock is
    asked for once; and [app] itself never calls [process.exit] and
    never ends as an exit of the process. *)
Theorem X2_app_installs_barrier_and_never_exits env id0 :
  let r := run (app env) (initial_world id0) in
  head r.2 = Some E_setUncaughtExceptionCaptureCallback ∧
  calls_of E_setUncaughtExceptionCaptureCallback r.2 = 1 ∧
  length (lock_calls r.2) = 1 ∧
  exit_calls r.2 = [] ∧
  (∀ code, r.1 ≠ Exit code).
Proof. cbv zeta. unfold run. app_cases env id0; by repeat split. Qed.

(** X3. On win32 and linux [app] sets the application identifier to
    [build.appId] of package.json and asks for the lock under it; on
    every other platform it does not call [setID] and asks for the lock
    under the identifier that the toolkit reports. *)
Theorem X3_lock_identifier_by_platform env id0 :
  let t := (run (app env) (initial_world id0)).2 in
  (platform env = "win32" ∨ platform env = "linux" →
     setID_calls t = [packageJson_build_appId env] ∧
     lock_calls t = [packageJson_build_appId env]) ∧
  (platform env ≠ "win32" → platform env ≠ "linux" →
     setID_calls t = [] ∧ lock_calls t = [id0]).
Proof.
  cbv zeta. unfold run. split.
  - intros Hp.
    assert (bool_decide (platform env = "win32") || bool_decide (platform env = "linux") = true)
      as Hb by (destruct Hp as [-> | ->]; reflexivity).
    rewrite app_run. unfold app_prefix, app_setup, lock_id. rewrite Hb.
    destruct (singleInstanceLock_result env (packageJson_build_appId env)) as [e|];
      try destruct (bool_decide (toString e = "ALREADY_RUNNING")); by split.
  - intros Hw Hl.
    assert (bool_decide (platform env = "win32") || bool_decide (platform env = "linux") = false)
      as Hb by (by rewrite !bool_decide_eq_false_2).
    rewrite app_run. unfold app_prefix, app_setup, lock_id. rewrite Hb.
    destruct (singleInstanceLock_result env id0) as [e|];
      try destruct (bool_decide (toString e = "ALREADY_RUNNING")); by split.
Qed.

Lemma X3_witness :
  lock_calls (run (app env_started) (initial_world "org.toolkit.default")).2
    = ["com.rclonetray.app"] ∧
  lock_calls (run (app env_darwin) (initial_world "org.toolkit.default")).2
    = ["org.toolkit.default"].
Proof.
  split.
  - apply (proj1 (X3_lock_identifier_by_platform env_started "org.toolkit.default")).
    by right.
  - apply (proj2 (X3_lock_identifier_by_platform env_darwin "org.toolkit.default"));
      discriminate.
Defined.

(** ** More on the [ready] cycle *)

Lemma calls_of_absent e t : e ∉ t → calls_of e t = 0.
Proof.
  unfold calls_of. induction t as [|x t IH]; [done|].
  intros [Hx Ht]%not_elem_of_cons. rewrite filter_cons.
  case_decide; [by subst|]. by apply IH.
Qed.

(** The third [ready] listener calls [getBookmarks], [mount], [pull]
    and [logger.warn] and nothing else. *)
Lemma calls_of_bookmarks_trace e env :
  e ≠ E_rclone_getBookmarks →
  (∀ n c, e ≠ E_rclone_mount n c) →
  (∀ n c, e ≠ E_rclone_pull n c) →
  (∀ a b, e ≠ E_logger_warn a b) →
  calls_of e (bookmarks_trace env) = 0.
Proof.
  intros Hg Hm Hp Hw. apply calls_of_absent. unfold bookmarks_trace.
  intros [->|Hin]%elem_of_cons; [done|].
  destruct (getBookmarks_result env) as [err|bs].
  - apply elem_of_cons in Hin as [->|Hin%elem_of_nil]; [|done].
    by eapply Hw.
  - induction bs as [|[n c] bs IH]; [by apply elem_of_nil in Hin|].
    cbn [flat_map] in Hin. apply elem_of_app in Hin as [Hin|Hin]; [|by apply IH].
    unfold bookmark_calls in Hin. cbn [fst snd] in Hin.
    destruct (wants_mount env c), (wants_pull env c); cbn [Datatypes.app] in Hin;
      repeat (apply elem_of_cons in Hin as [->|Hin];
              [first [by eapply Hm | by eapply Hp]|]);
      by apply elem_of_nil in Hin.
Qed.

(** X4. When the lock is acquired and the configuration holds no
    [rclone_options], or an empty object, [setOptions] is called with
    the built-in options as they stand. *)
Theorem X4_no_overrides_applies_builtin env id0 :
  lock_acquired env id0 →
  config_rclone_options env = None ∨ config_rclone_options env = Some ∅ →
  setOptions_calls (run (startup_then env ev_ready) (initial_world id0)).2 = [builtin_options].
Proof.
  intros Hlock Hcfg. rewrite startup_ready_run by done. cbn [snd].
  rewrite ready_cycle_setOptions_calls. unfold ready_options, object_spread.
  destruct Hcfg as [-> | ->]; cbn [default]; f_equal; apply map_eq; intros s;
    rewrite lookup_union, lookup_empty; by destruct (builtin_options !! s).
Qed.

Lemma X4_witness :
  setOptions_calls (run (startup_then env_started ev_ready) (initial_world "")).2
    = [builtin_options] ∧
  setOptions_calls (run (startup_then env_darwin ev_ready) (initial_world "")).2
    = [builtin_options].
Proof.
  split.
  - apply (X4_no_overrides_applies_builtin env_started "" eq_refl). by left.
  - apply (X4_no_overrides_applies_builtin env_darwin "" eq_refl). by right.
Defined.

(** X5. When the lock is acquired, the object given to [setOptions] has
    the sections of the overrides and the sections [vfs] and [mount],
    and no others; [vfs] and [mount] are always there. *)
Theorem X5_applied_sections env id0 :
  lock_acquired env id0 →
  ∃ merged,
    setOptions_calls (run (startup_then env ev_ready) (initial_world id0)).2 = [merged] ∧
    dom merged = dom (default ∅ (config_rclone_options env)) ∪ {["vfs"; "mount"]} ∧
    is_Some (merged !! "vfs") ∧ is_Some (merged !! "mount").
Proof.
  intros Hlock. exists (ready_options (config_rclone_options env)).
  rewrite startup_ready_run by done. cbn [snd].
  split; [apply ready_cycle_setOptions_calls|].
  assert (dom (ready_options (config_rclone_options env)) =
          dom (default ∅ (config_rclone_options env)) ∪ {["vfs"; "mount"]}) as Hdom.
  { unfold ready_options, object_spread, builtin_options.
    rewrite dom_union_L, !dom_insert_L, dom_empty_L.
    by rewrite (right_id_L ∅ (∪)). }
  split; [exact Hdom|]. rewrite <- !elem_of_dom, Hdom.
  split; apply elem_of_union_r; [apply elem_of_union_l | apply elem_of_union_r];
    by apply elem_of_singleton.
Qed.

Lemma X5_witness :
  ∃ merged,
    setOptions_calls (run (startup_then env_overrides ev_ready) (initial_world "")).2 = [merged] ∧
    is_Some (merged !! "vfs") ∧ is_Some (merged !! "mount").
Proof.
  destruct (X5_applied_sections env_overrides "" eq_refl) as (merged & Hc & _ & Hv & Hm).
  exists merged. split; [exact Hc|]. split; [exact Hv | exact Hm].
Defined.



(** X7. When the lock is acquired, the [ready] cycle calls [updateMenu]
    once.  On darwin it sets the application menu once and the
    activation policy to ["accessory"]; on every other platform it does
    neither. *)
Theorem X7_ready_menu_by_platform env id0 :
  lock_acquired env id0 →
  let t := (run (startup_then env ev_ready) (initial_world id0)).2 in
  calls_of E_updateMenu t = 1 ∧
  (platform env = "darwin" →
     calls_of E_gui_app_setApplicationMenu t = 1 ∧ activation_policies t = ["accessory"]) ∧
  (platform env ≠ "darwin" →
     calls_of E_gui_app_setApplicationMenu t = 0 ∧ activation_policies t = []).
Proof.
  intros Hlock t. subst t. rewrite startup_ready_run by done. cbn [snd].
  assert (activation_policies (bookmarks_trace env) = []) as Hpol.
  { unfold activation_policies, bookmarks_trace. destruct (getBookmarks_result env); [done|].
    cbn [omap list_omap]. by apply omap_bookmark_calls. }
  assert (calls_of E_updateMenu (bookmarks_trace env) = 0) as Hu
    by (by apply calls_of_bookmarks_trace).
  assert (calls_of E_gui_app_setApplicationMenu (bookmarks_trace env) = 0) as Ha
    by (by apply calls_of_bookmarks_trace).
  unfold ready_trace, calls_of, activation_policies in *.
  rewrite !filter_app, !length_app, !omap_app, Hpol, Hu, Ha.
  unfold app_prefix, app_setup, setOptions_trace, menu_trace.
  split; [|split].
  - by destruct (bool_decide (platform env = "win32") || bool_decide (platform env = "linux")),
      (bool_decide (platform env = "darwin")).
  - intros Hd. rewrite (bool_decide_eq_true_2 _ Hd).
    by destruct (bool_decide (platform env = "win32") || bool_decide (platform env = "linux")).
  - intros Hd. rewrite (bool_decide_eq_false_2 _ Hd).
    by destruct (bool_decide (platform env = "win32") || bool_decide (platform env = "linux")).
Qed.

Lemma X7_witness :
  activation_policies (run (startup_then env_darwin ev_ready) (initial_world "")).2
    = ["accessory"] ∧
  activation_policies (run (startup_then env_started ev_ready) (initial_world "")).2 = [].
Proof.
  split.
  - by apply (proj1 (proj2 (X7_ready_menu_by_platform env_darwin "" eq_refl))).
  - apply (proj2 (proj2 (X7_ready_menu_by_platform env_started "" eq_refl))). discriminate.
Defined.

Lemma action_calls_bookmarks env bs :
  action_calls (flat_map (bookmark_calls env) bs) = flat_map (bookmark_calls env) bs.
Proof.
  unfold action_calls. induction bs as [|[n c] bs IH]; [done|].
  cbn [flat_map]. rewrite omap_app, IH. f_equal.
  unfold bookmark_calls. by destruct (wants_mount env _), (wants_pull env _).
Qed.

(** X8. When the lock is acquired and [getBookmarks] resolves to [bs],
    every [mount] and [pull] call of the [ready] cycle comes after the
    call of [getBookmarks]; the calls follow the order of the entries,
    [mount] before [pull] for one bookmark; and no warning is logged. *)
Theorem X8_reconciliation_order env id0 bs :
  lock_acquired env id0 →
  getBookmarks_result env = inr bs →
  let t := (run (startup_then env ev_ready) (initial_world id0)).2 in
  ∃ before,
    t = before ++ E_rclone_getBookmarks :: flat_map (bookmark_calls env) bs ∧
    action_calls before = [] ∧
    action_calls t = flat_map (bookmark_calls env) bs ∧
    warnings t = [].
Proof.
  intros Hlock Hbs t. subst t. rewrite startup_ready_run by done. cbn [snd].
  exists (app_prefix env id0 ++ app_setup ++ setOptions_trace env ++ menu_trace env).
  assert (action_calls (app_prefix env id0 ++ app_setup ++ setOptions_trace env ++ menu_trace env)
          = []) as Hbefore by before_bookmarks env.
  assert (warnings (app_prefix env id0 ++ app_setup ++ setOptions_trace env ++ menu_trace env)
          = []) as Hwarn by before_bookmarks env.
  assert (app_prefix env id0 ++ app_setup ++ ready_trace env =
          (app_prefix env id0 ++ app_setup ++ setOptions_trace env ++ menu_trace env) ++
          E_rclone_getBookmarks :: flat_map (bookmark_calls env) bs) as ->.
  { unfold ready_trace, bookmarks_trace. rewrite Hbs. by rewrite <- !app_assoc. }
  split; [done|]. split; [done|]. unfold action_calls, warnings in *. split.
  - rewrite (omap_app _ (_ ++ _ ++ _ ++ _)), Hbefore. cbn [omap list_omap Datatypes.app].
    apply action_calls_bookmarks.
  - rewrite (omap_app _ (_ ++ _ ++ _ ++ _)), Hwarn. cbn [omap list_omap Datatypes.app].
    by apply omap_bookmark_calls.
Qed.

Lemma X8_witness :
  action_calls (run (startup_then env_started ev_ready) (initial_world "")).2 =
  [E_rclone_mount "A" bookmark_A; E_rclone_pull "B" bookmark_B;
   E_rclone_mount "D" bookmark_D; E_rclone_pull "D" bookmark_D].
Proof.
  destruct (X8_reconciliation_order env_started "" sample_bookmarks eq_refl eq_refl)
    as (before & _ & _ & Hcalls & _).
  rewrite Hcalls. reflexivity.
Defined.

(** ** Sequences of events *)

Lemma omap_flat_map {A B C} (f : B → option C) (g : A → list B) (l : list A) :
  omap f (flat_map g l) = flat_map (λ x, omap f (g x)) l.
Proof. induction l as [|x l IH]; [done|]. cbn [flat_map]. by rewrite omap_app, IH. Qed.

Lemma flat_map_option_list {A B} (h : A → option B) (l : list A) :
  flat_map (λ x, option_list (h x)) l = omap h l.
Proof.
  induction l as [|x l IH]; [done|]. cbn [flat_map omap list_omap].
  rewrite IH. by destruct (h x).
Qed.

Lemma omap_none {A} (f : effect → option A) (t : list effect) :
  Forall (λ e, f e = None) t → omap f t = [].
Proof. induction 1 as [|e t He _ IH]; [done|]. cbn [omap list_omap]. by rewrite He. Qed.

Lemma calls_of_app e t1 t2 : calls_of e (t1 ++ t2) = calls_of e t1 + calls_of e t2.
Proof. unfold calls_of. by rewrite filter_app, length_app. Qed.

Lemma ready_trace_ready_calls env : Forall (λ e, ready_call e) (ready_trace env).
Proof.
  unfold ready_trace, setOptions_trace, menu_trace, bookmarks_trace.
  repeat apply Forall_app_2.
  - by repeat constructor.
  - destruct (bool_decide (platform env = "darwin")); by repeat constructor.
  - constructor; [done|]. destruct (getBookmarks_result env) as [e|bs];
      [by repeat constructor|].
    induction bs as [|[n c] bs IH]; [constructor|]. cbn [flat_map].
    apply Forall_app_2; [|exact IH]. unfold bookmark_calls.
    destruct (wants_mount env _), (wants_pull env _); by repeat constructor.
Qed.

(** A reading that lets no call of the [ready] listeners through. *)
Lemma omap_ready_trace {A} (f : effect → option A) env :
  (∀ e, ready_call e → f e = None) → omap f (ready_trace env) = [].
Proof.
  intros Hf. apply omap_none. eapply Forall_impl; [apply ready_trace_ready_calls|].
  exact Hf.
Qed.



Lemma omap_events {B} (f : effect → option B) (h : event → option B) env evs :
  (∀ ev, omap f (event_trace env ev) = option_list (h ev)) →
  omap f (flat_map (event_trace env) evs) = omap h evs.
Proof.
  intros Hev. rewrite omap_flat_map, <- flat_map_option_list.
  apply flat_map_ext. exact Hev.
Qed.

(** A reading that lets no call of the three paths of [app] through. *)
Ltac app_trace_nil env :=
  unfold app_prefix, app_setup;
  destruct (bool_decide (platform env = "win32") || bool_decide (platform env = "linux"));
  reflexivity.

Lemma mount_calls_ready_trace env :
  mount_calls (ready_trace env) =
  match getBookmarks_result env with
  | inl _ => []
  | inr bs => filter (λ b, wants_mount env b.2) bs
  end.
Proof.
  unfold ready_trace, setOptions_trace, menu_trace, bookmarks_trace, mount_calls.
  rewrite !omap_app.
  destruct (bool_decide (platform env = "darwin")), (getBookmarks_result env) as [e|bs];
    cbn [omap list_omap Datatypes.app]; try done; apply mount_calls_bookmarks.
Qed.

Lemma pull_calls_ready_trace env :
  pull_calls (ready_trace env) =
  match getBookmarks_result env with
  | inl _ => []
  | inr bs => filter (λ b, wants_pull env b.2) bs
  end.
Proof.
  unfold ready_trace, setOptions_trace, menu_trace, bookmarks_trace, pull_calls.
  rewrite !omap_app.
  destruct (bool_decide (platform env = "darwin")), (getBookmarks_result env) as [e|bs];
    cbn [omap list_omap Datatypes.app]; try done; apply pull_calls_bookmarks.
Qed.

Lemma calls_of_ready_trace env :
  calls_of E_updateMenu (ready_trace env) = 1 ∧
  calls_of E_rclone_getBookmarks (ready_trace env) = 1.
Proof.
  unfold ready_trace. rewrite !calls_of_app.
  rewrite (calls_of_bookmarks_trace E_updateMenu) by done.
  assert (calls_of E_rclone_getBookmarks (bookmarks_trace env) = 1) as ->.
  { unfold bookmarks_trace. change (E_rclone_getBookmarks :: ?t) with ([E_rclone_getBookmarks] ++ t).
    rewrite calls_of_app. rewrite (calls_of_absent _ (match _ with inl _ => _ | inr _ => _ end)).
    - reflexivity.
    - destruct (getBookmarks_result env) as [e|bs].
      + intros [H|H%elem_of_nil]%elem_of_cons; [discriminate | done].
      + intros H. pose proof (action_calls_bookmarks env bs) as Ha.
        assert (E_rclone_getBookmarks ∈ action_calls (flat_map (bookmark_calls env) bs)) as Hin
          by (rewrite Ha; exact H).
        apply list_elem_of_omap in Hin as (x & _ & Hx). by destruct x. }
  unfold setOptions_trace, menu_trace.
  by destruct (bool_decide (platform env = "darwin")).
Qed.



(** X10. When the lock is acquired, the log store after the events
    [evs] holds one record for every event but [ready], in the order of
    emission: the payload of an [error] or [log] event as it came, and
    an [info] or [error] entry for the others.  Nothing is dropped,
    merged or reordered. *)
Theorem X10_log_store_follows_events env id0 evs :
  lock_acquired env id0 →
  log_store (trace (startup_then_all env evs (initial_world id0)).2) = omap log_record_of evs ∧
  (∀ ev, log_record_of ev = None ↔ ev = ev_ready).
Proof.
  intros Hlock. split.
  - rewrite startup_then_all_run by done. cbn [snd trace].
    destruct (app_trace_quiet env id0) as (Hlog & _).
    unfold log_store in *. rewrite omap_app, Hlog. cbn [Datatypes.app].
    apply omap_events.
    intros [error reason|[[action name]|]|action name []| |entry|message];
      cbn [event_trace]; try done.
    apply omap_ready_trace. by intros [].
  - intros [error reason|[[action name]|]|action name completed| |entry|message];
      by split.
Qed.

Lemma X10_witness :
  log_store (trace (startup_then_all env_started sample_events (initial_world "")).2) =
  [LogEntry "info" "External config change";
   LogErrorEvent (JStr "Mount failed") None;
   LogEntry "info" "Start: mount on: A";
   LogEntry "warn" "slow remote";
   LogEntry "info" "Stop: mount on: A";
   LogEntry "info" "Config: update on: B"].
Proof.
  rewrite (proj1 (X10_log_store_follows_events env_started "" sample_events eq_refl)).
  reflexivity.
Defined.

(** X11. When the lock is acquired, [updateMenu] has been called once
    for every [ready], [config] and [action] event, and for no other. *)
Theorem X11_menu_refreshed_per_event env id0 evs :
  lock_acquired env id0 →
  calls_of E_updateMenu (trace (startup_then_all env evs (initial_world id0)).2) =
  length (filter (λ ev, refreshes_menu ev) evs).
Proof.
  intros Hlock. rewrite startup_then_all_run by done. cbn [snd trace].
  rewrite calls_of_app.
  assert (calls_of E_updateMenu (app_prefix env id0 ++ app_setup) = 0) as ->.
  { unfold calls_of, app_prefix, app_setup.
    by destruct (bool_decide (platform env = "win32") || bool_decide (platform env = "linux")). }
  induction evs as [|ev evs IH]; [done|].
  cbn [flat_map]. rewrite calls_of_app, filter_cons. cbn [plus] in *. rewrite IH.
  destruct ev as [error reason|[[action name]|]|action name []| |entry|message];
    cbn [event_trace refreshes_menu]; try done.
  destruct (calls_of_ready_trace env) as [-> _]. by case_decide.
Qed.

Lemma X11_witness :
  calls_of E_updateMenu (trace (startup_then_all env_started sample_events (initial_world "")).2)
  = 6.
Proof.
  rewrite (X11_menu_refreshed_per_event env_started "" sample_events eq_refl).
  reflexivity.
Defined.

(** X12. When the lock is acquired and [getBookmarks] resolves to [bs],
    every [ready] event fetches the bookmarks once and makes the [mount]
    and [pull] calls again: after the events [evs] the [mount] calls are
    as many copies of the bookmarks to mount as there were [ready]
    events, and so for [pull].  Nothing remembers what was mounted. *)
Theorem X12_every_ready_reconciles_again env id0 bs evs :
  lock_acquired env id0 →
  getBookmarks_result env = inr bs →
  let t := trace (startup_then_all env evs (initial_world id0)).2 in
  mount_calls t = mjoin (replicate (ready_count evs) (filter (λ b, wants_mount env b.2) bs)) ∧
  pull_calls t = mjoin (replicate (ready_count evs) (filter (λ b, wants_pull env b.2) bs)) ∧
  calls_of E_rclone_getBookmarks t = ready_count evs.
Proof.
  intros Hlock Hbs t. subst t. rewrite startup_then_all_run by done. cbn [snd trace].
  assert (mount_calls (app_prefix env id0 ++ app_setup) = []) as Hm0 by app_trace_nil env.
  assert (pull_calls (app_prefix env id0 ++ app_setup) = []) as Hp0 by app_trace_nil env.
  unfold mount_calls, pull_calls in *.
  rewrite calls_of_app, !(omap_app _ (app_prefix env id0 ++ app_setup)), Hm0, Hp0.
  assert (calls_of E_rclone_getBookmarks (app_prefix env id0 ++ app_setup) = 0) as ->.
  { unfold calls_of, app_prefix, app_setup.
    by destruct (bool_decide (platform env = "win32") || bool_decide (platform env = "linux")). }
  cbn [Datatypes.app plus]. unfold ready_count.
  induction evs as [|ev evs (IHm & IHp & IHg)]; [done|].
  cbn [flat_map]. rewrite calls_of_app, !omap_app, filter_cons, IHm, IHp, IHg.
  destruct ev as [error reason|[[action name]|]|action name []| |entry|message];
    cbn [event_trace]; try done.
  pose proof (mount_calls_ready_trace env) as Hm.
  pose proof (pull_calls_ready_trace env) as Hp.
  destruct (calls_of_ready_trace env) as [_ Hg].
  unfold mount_calls, pull_calls in Hm, Hp. rewrite Hm, Hp, Hg, Hbs.
  by case_decide.
Qed.

Lemma X12_witness :
  mount_calls (trace (startup_then_all env_started sample_events (initial_world "")).2) =
  [("A", bookmark_A); ("D", bookmark_D); ("A", bookmark_A); ("D", bookmark_D)].
Proof.
  rewrite (proj1 (X12_every_ready_reconciles_again env_started "" sample_bookmarks
                    sample_events eq_refl eq_refl)).
  reflexivity.
Defined.

(** X13. When the lock is acquired, the notifications sent after the
    events [evs] are the messages of the [error] events, one for each,
    in the order of emission; no other event notifies. *)
Theorem X13_notifications_follow_errors env id0 evs :
  lock_acquired env id0 →
  notifications (trace (startup_then_all env evs (initial_world id0)).2) =
  omap (λ ev, match ev with
              | ev_error error reason => Some (error_message error reason)
              | _ => None
              end) evs.
Proof.
  intros Hlock. rewrite startup_then_all_run by done. cbn [snd trace].
  destruct (app_trace_quiet env id0) as (_ & _ & Hnote & _).
  unfold notifications in *. rewrite omap_app, Hnote. cbn [Datatypes.app].
  apply omap_events.
  intros [error reason|[[action name]|]|action name []| |entry|message];
    cbn [event_trace]; try done.
  apply omap_ready_trace. by intros [].
Qed.

Lemma X13_witness :
  notifications (trace (startup_then_all env_started sample_events (initial_world "")).2)
  = ["Mount failed"].
Proof.
  rewrite (X13_notifications_follow_errors env_started "" sample_events eq_refl).
  reflexivity.
Defined.

(** ** More on shutdown *)

Lemma close_windows_all_ok ws :
  Forall (λ x, close_result x = None) ws →
  close_windows ws = (E_win_close <$> (win_id <$> ws), None).
Proof.
  induction 1 as [|win ws Hwin _ IH]; [done|].
  cbn [close_windows]. by rewrite Hwin, IH.
Qed.






(** X15. When every [close()] returns, every open window is asked to
    close, once and in order, then [stopRcloneDaemon] is called once,
    and the process exits: with code 0 when the daemon stopped, and
    with the warning and code 1 when [stopRcloneDaemon] was rejected. *)
Theorem X15_clean_close_then_stop env id0 :
  Forall (λ x, close_result x = None) (open_windows env) →
  run (appQuit env) (initial_world id0) =
  match stopRcloneDaemon_result env with
  | None =>
      (Exit 0, (E_win_close <$> (win_id <$> open_windows env)) ++
               [E_stopRcloneDaemon; E_process_exit 0])
  | Some e =>
      (Exit 1, (E_win_close <$> (win_id <$> open_windows env)) ++
               [E_stopRcloneDaemon; E_console_warn "Exit with errors." (toString e);
                E_process_exit 1])
  end.
Proof.
  intros Hok. unfold run. rewrite appQuit_run.
  unfold exit_code, shutdown_failure, appQuit_trace, extend.
  rewrite (close_windows_all_ok _ Hok).
  cbn [fst snd trace initial_world Datatypes.app].
  by destruct (stopRcloneDaemon_result env).
Qed.

Lemma X15_witness :
  run (appQuit (env_quit [window_ok 4; window_ok 9] None)) (initial_world "") =
  (Exit 0, [E_win_close 4; E_win_close 9; E_stopRcloneDaemon; E_process_exit 0]) ∧
  run (appQuit (env_quit [] (Some (JStr "rc: not running")))) (initial_world "") =
  (Exit 1, [E_stopRcloneDaemon; E_console_warn "Exit with errors." "rc: not running";
            E_process_exit 1]).
Proof.
  split.
  - apply (X15_clean_close_then_stop (env_quit [window_ok 4; window_ok 9] None) "").
    by repeat constructor.
  - apply (X15_clean_close_then_stop (env_quit [] (Some (JStr "rc: not running"))) "").
    constructor.
Defined.

